(** * drone_server.py: command arbitration and flight-phase logic

    A shallow embedding of [src/drone_server.py] (the tele-operation server
    sitting between an operator's WebSocket commands and a DroneKit vehicle)
    and the properties of its control loop, mode/arm controllers, takeoff
    sequencer and command router.

    Conventions of the model.
    - Python floats (times in seconds, altitudes in metres, velocities) are
      rationals [Q]; rounding, NaN and infinities are outside the model.
    - The module-level globals of the server, the wall clock and a trace of
      the requests the server issues form a [World]; every function of the
      server is a computation [M A] over the world that returns, raises a
      Python exception, or runs out of loop fuel.
    - The DroneKit [Vehicle] object is an interface ([DroneKit]): the server
      reads attributes and issues requests, and the vehicle evolves on its
      own while the server sleeps.
    - [time.sleep d] advances the clock by exactly [d]; other statements
      take no time.  Each handler, one control-loop tick and the takeoff
      watcher are run to completion without interleaving.
    - [print] and [log] calls have no effect on the modelled state and are
      left out. *)

From Stdlib Require Import QArith Qabs ZArith String Ascii List Bool Lia Lqa.
Import ListNotations.
Local Open Scope string_scope.
Local Open Scope list_scope.
Local Open Scope Q_scope.
Set Warnings "-register-all".

(** ** Python values that the server handles *)

(** The result of [json.loads]: a number is an int of any size or a double,
    an object is the list of its key/value pairs (a key occurs once). *)
Inductive JSON : Type :=
| JNull
| JBool (b : bool)
| JNum (q : Q)
| JStr (s : string)
| JArr (items : list JSON)
| JObj (fields : list (string * JSON)).

(** A WebSocket text frame as [json.loads] sees it: either it raises (with
    the text of the exception) or it yields a value. *)
Inductive Frame : Type :=
| Malformed (detail : string)
| Parsed (data : JSON).

Inductive Exn : Type :=
| TypeError (msg : string)
| ValueError (msg : string)
| AttributeError (msg : string)
| UnicodeEncodeError (msg : string)
| OverflowError (msg : string)
| DroneKitError (msg : string).

(** [str(e)] *)
Definition exn_str (e : Exn) : string :=
  match e with
  | TypeError m | ValueError m | AttributeError m
  | UnicodeEncodeError m | OverflowError m | DroneKitError m => m
  end.

(** The second positional argument of [ensure_mode] is dynamically typed:
    callers pass an integer (the default 3) or, in [do_takeoff], a string. *)
Inductive PyVal : Type :=
| PyInt (n : Z)
| PyStr (s : string).

(** [range(x)]: the number of iterations, or TypeError for a non-integer. *)
Definition py_range (x : PyVal) : Exn + nat :=
  match x with
  | PyInt n => inr (Z.to_nat n)
  | PyStr _ => inl (TypeError "range() integer end argument expected, got str")
  end.

(** [dict.get(key, default)] on a parsed object. *)
Fixpoint assoc_get (key : string) (fields : list (string * JSON)) : option JSON :=
  match fields with
  | [] => None
  | (k, v) :: rest => if String.eqb k key then Some v else assoc_get key rest
  end.

Definition dict_get (fields : list (string * JSON)) (key : string) (default : JSON) : JSON :=
  match assoc_get key fields with
  | Some v => v
  | None => default
  end.

(** [d[key] = v] *)
Fixpoint dict_set (key : string) (v : JSON) (fields : list (string * JSON))
  : list (string * JSON) :=
  match fields with
  | [] => [(key, v)]
  | (k, x) :: rest =>
      if String.eqb k key then (k, v) :: rest else (k, x) :: dict_set key v rest
  end.

(** [s.upper()] on a byte string. *)
Definition upper_ascii (c : ascii) : ascii :=
  let n := nat_of_ascii c in
  if ((97 <=? n) && (n <=? 122))%nat then ascii_of_nat (n - 32) else c.

Fixpoint upper (s : string) : string :=
  match s with
  | EmptyString => EmptyString
  | String c rest => String (upper_ascii c) (upper rest)
  end.

Fixpoint is_ascii (s : string) : bool :=
  match s with
  | EmptyString => true
  | String c rest => (nat_of_ascii c <? 128)%nat && is_ascii rest
  end.

(** Builtins of the Python runtime that are not part of the repository:
    parsing a float out of text, and the [repr] of numbers, lists and
    dicts. *)
Class PyRuntime : Type := {
  float_of_text : string -> option Q;
  repr : JSON -> string
}.

(** [x < y] and [x <= y] on floats. *)
Definition Qltb (x y : Q) : bool := negb (Qle_bool y x).
Definition Qleb (x y : Q) : bool := Qle_bool x y.

(** The least magnitude that does not fit a double: an int [n] with
    [|n| >= 2^1024 - 2^970] rounds (to 53 bits, ties to even) out of the
    range, and [float(n)] raises OverflowError. *)
Definition FLOAT_OVERFLOW : Z := 2 ^ 1024 - 2 ^ 970.

(** A parsed number is an int or a finite double, and every double lies
    below [FLOAT_OVERFLOW] in magnitude: a number from there on is an int
    that [float] cannot convert. *)
Definition float_overflows (q : Q) : bool :=
  Qle_bool (inject_Z FLOAT_OVERFLOW) (Qabs q).

(** ** The vehicle interface *)

(** What [vehicle.location.global_relative_frame.alt] can be when
    [safe_alt] reads it. *)
Inductive AltReading : Type :=
| AltRaises                 (* an attribute read raises *)
| NoLocation                (* vehicle.location is falsy *)
| NoFrame                   (* location.global_relative_frame is falsy *)
| AltNone                   (* alt is None *)
| AltValue (a : Q).

(** The arguments of [set_position_target_local_ned_encode]. *)
Record NedMsg : Type := {
  time_boot_ms : Z;
  target_system : Z;
  target_component : Z;
  frame : Z;
  type_mask : Z;
  pos_x : Q; pos_y : Q; pos_z : Q;
  vel_x : Q; vel_y : Q; vel_z : Q;
  acc_x : Q; acc_y : Q; acc_z : Q;
  msg_yaw : Q;
  msg_yaw_rate : Q
}.

(** Attributes that only [get_basic_status] reads. *)
Inductive Attr : Type :=
| AIsArmable | AEkfOk | AGpsFix | AGpsSatellites | AGroundspeed | AHeading
| AAttitude | ABattery.

(** The DroneKit vehicle as the server uses it.  [None] from a read or a
    request means the call raises. *)
Class DroneKit (V : Type) : Type := {
  mode_name : V -> option string;          (* vehicle.mode.name *)
  armed : V -> bool;                       (* vehicle.armed *)
  alt_reading : V -> AltReading;
  attribute : Attr -> V -> option JSON;
  set_mode : string -> V -> option V;      (* vehicle.mode = VehicleMode(s) *)
  set_armed : bool -> V -> V;              (* vehicle.armed = b *)
  simple_takeoff : Q -> V -> option V;     (* vehicle.simple_takeoff(alt) *)
  send_mavlink : NedMsg -> V -> option V;  (* message_factory + send_mavlink *)
  elapse : Q -> V -> V                     (* the vehicle after d seconds *)
}.

(** ** The world: globals, clock and trace *)

Record VelocityCmd : Type := {
  vx : Q; vy : Q; vz : Q; yaw_rate : Q
}.

Record StatusText : Type := {
  st_time : Q; st_severity : JSON; st_text : string
}.

(** Threads the server starts. *)
Inductive Thread : Type :=
| ThDoTakeoff (alt : Q)         (* Thread(target=do_takeoff, args=(alt,)) *)
| ThWatcher (target_alt : Q).   (* Thread(target=watcher) *)

(** Requests issued by the server, recorded when they are issued (whether
    or not DroneKit then raises). *)
Inductive Event : Type :=
| EvSetMode (target : string)
| EvSetArmed (b : bool)
| EvSimpleTakeoff (alt : Q)
| EvMavlink (m : NedMsg)
| EvReply (reply : JSON)        (* self.write_message(json.dumps(reply)) *)
| EvSpawn (t : Thread).

Definition is_vehicle_write (e : Event) : bool :=
  match e with
  | EvSetMode _ | EvSetArmed _ | EvSimpleTakeoff _ | EvMavlink _ => true
  | EvReply _ | EvSpawn _ => false
  end.

Fixpoint replies (tr : list Event) : list JSON :=
  match tr with
  | [] => []
  | EvReply r :: rest => r :: replies rest
  | _ :: rest => replies rest
  end.

Fixpoint velocities_sent (tr : list Event) : list NedMsg :=
  match tr with
  | [] => []
  | EvMavlink m :: rest => m :: velocities_sent rest
  | _ :: rest => velocities_sent rest
  end.

Record World (V : Type) : Type := mkWorld {
  vehicle : option V;
  last_velocity_cmd : VelocityCmd;
  last_joystick_time : Q;
  takeoff_in_progress : bool;
  takeoff_target_alt : option Q;
  landing_in_progress : bool;
  recent_statustext : list StatusText;
  now : Q;                        (* time.time() *)
  trace : list Event
}.

Arguments mkWorld {V}.
Arguments vehicle {V}.
Arguments last_velocity_cmd {V}.
Arguments last_joystick_time {V}.
Arguments takeoff_in_progress {V}.
Arguments takeoff_target_alt {V}.
Arguments landing_in_progress {V}.
Arguments recent_statustext {V}.
Arguments now {V}.
Arguments trace {V}.

(** ** Computations *)

Inductive Outcome (A : Type) : Type :=
| Ret (a : A)
| Raise (e : Exn)
| NoFuel.

Arguments Ret {A}.
Arguments Raise {A}.
Arguments NoFuel {A}.

Definition M (V A : Type) : Type := World V -> Outcome A * World V.

Definition ret {V A} (a : A) : M V A := fun w => (Ret a, w).

Definition bind {V A B} (m : M V A) (k : A -> M V B) : M V B :=
  fun w =>
    match m w with
    | (Ret a, w') => k a w'
    | (Raise e, w') => (Raise e, w')
    | (NoFuel, w') => (NoFuel, w')
    end.

Definition raise {V A} (e : Exn) : M V A := fun w => (Raise e, w).

Definition no_fuel {V A} : M V A := fun w => (NoFuel, w).

(** [try: m  except Exception as e: handler e] *)
Definition try_except {V A} (m : M V A) (handler : Exn -> M V A) : M V A :=
  fun w =>
    match m w with
    | (Raise e, w') => handler e w'
    | r => r
    end.

Declare Scope py_scope.
Delimit Scope py_scope with py.
Notation "x <- m ;; k" := (bind m (fun x => k))
  (at level 61, m at next level, right associativity) : py_scope.
Notation "m ;; k" := (bind m (fun _ => k))
  (at level 61, right associativity) : py_scope.
Local Open Scope py_scope.

Section Server.

Context {V : Type} {DK : DroneKit V} {PY : PyRuntime}.

Abbreviation W := (World V).
Abbreviation Cmd := (M V).

Definition gets {A} (f : W -> A) : Cmd A := fun w => (Ret (f w), w).

Definition modify (f : W -> W) : Cmd unit := fun w => (Ret tt, f w).

Definition with_vehicle (v : option V) (w : W) : W :=
  mkWorld v (last_velocity_cmd w) (last_joystick_time w)
    (takeoff_in_progress w) (takeoff_target_alt w) (landing_in_progress w)
    (recent_statustext w) (now w) (trace w).

Definition with_command (c : VelocityCmd) (t : Q) (w : W) : W :=
  mkWorld (vehicle w) c t
    (takeoff_in_progress w) (takeoff_target_alt w) (landing_in_progress w)
    (recent_statustext w) (now w) (trace w).

Definition with_takeoff_in_progress (b : bool) (w : W) : W :=
  mkWorld (vehicle w) (last_velocity_cmd w) (last_joystick_time w)
    b (takeoff_target_alt w) (landing_in_progress w)
    (recent_statustext w) (now w) (trace w).

Definition with_takeoff_target_alt (a : option Q) (w : W) : W :=
  mkWorld (vehicle w) (last_velocity_cmd w) (last_joystick_time w)
    (takeoff_in_progress w) a (landing_in_progress w)
    (recent_statustext w) (now w) (trace w).

Definition with_landing_in_progress (b : bool) (w : W) : W :=
  mkWorld (vehicle w) (last_velocity_cmd w) (last_joystick_time w)
    (takeoff_in_progress w) (takeoff_target_alt w) b
    (recent_statustext w) (now w) (trace w).

Definition with_now (t : Q) (w : W) : W :=
  mkWorld (vehicle w) (last_velocity_cmd w) (last_joystick_time w)
    (takeoff_in_progress w) (takeoff_target_alt w) (landing_in_progress w)
    (recent_statustext w) t (trace w).

Definition with_trace (tr : list Event) (w : W) : W :=
  mkWorld (vehicle w) (last_velocity_cmd w) (last_joystick_time w)
    (takeoff_in_progress w) (takeoff_target_alt w) (landing_in_progress w)
    (recent_statustext w) (now w) tr.

(** Record a request in the trace. *)
Definition emit (e : Event) : Cmd unit :=
  modify (fun w => with_trace (trace w ++ [e]) w).

(** [time.time()] *)
Definition time_time : Cmd Q := gets now.

(** [time.sleep(d)]: the clock advances and the vehicle lives on. *)
Definition time_sleep (d : Q) : Cmd unit :=
  modify (fun w =>
    with_now (now w + d) (with_vehicle (option_map (elapse d) (vehicle w)) w)).

(** Reading an attribute of the global [vehicle]: AttributeError when the
    global is None, a DroneKit error when the read raises. *)
Definition vehicle_attr {A} (read : V -> option A) : Cmd A :=
  ov <- gets vehicle ;;
  match ov with
  | None => raise (AttributeError "'NoneType' object has no attribute")
  | Some v =>
      match read v with
      | Some a => ret a
      | None => raise (DroneKitError "vehicle attribute read failed")
      end
  end.

(** A request that changes the vehicle; the request is traced first. *)
Definition vehicle_request (e : Event) (req : V -> option V) : Cmd unit :=
  emit e ;;
  ov <- gets vehicle ;;
  match ov with
  | None => raise (AttributeError "'NoneType' object has no attribute")
  | Some v =>
      match req v with
      | Some v' => modify (with_vehicle (Some v'))
      | None => raise (DroneKitError "vehicle request failed")
      end
  end.

(** [if vehicle] / [if not vehicle] *)
Definition vehicle_present : Cmd bool :=
  ov <- gets vehicle ;;
  ret (match ov with Some _ => true | None => false end).

(** ** Constants *)

Definition CONTROL_HZ : Q := 20.
Definition VELOCITY_TIMEOUT : Q := 5 # 10.
Definition TELEM_INTERVAL : Q := 5 # 10.
Definition DEFAULT_TAKEOFF_ALT : Q := 15 # 10.

(** ** Utility functions *)

(** [safe_alt()], lines 83-91. *)
Definition safe_alt : Cmd Q :=
  ov <- gets vehicle ;;
  match ov with
  | None => ret 0
  | Some v =>
      match alt_reading v with
      | AltValue a => ret a
      | AltRaises | NoLocation | NoFrame | AltNone => ret 0
      end
  end.

(** An attribute for the status dict: a read that raises stores None. *)
Definition read_or_null (a : Attr) (v : V) : JSON :=
  match attribute a v with
  | Some j => j
  | None => JNull
  end.

(** The [control_status] entry, lines 153-179. *)
Definition control_status_of (v : V) : JSON :=
  let blank := [("can_control", JBool false); ("current_mode", JNull);
                ("message", JStr EmptyString)] in
  if armed v then
    match mode_name v with
    | Some name =>
        let cs := dict_set "current_mode" (JStr name) blank in
        if String.eqb name "GUIDED" || String.eqb name "GUIDED_NOGPS"
           || String.eqb name "POSHOLD"
        then JObj (dict_set "message" (JStr "摇杆控制已启用")
                     (dict_set "can_control" (JBool true) cs))
        else if String.eqb name "LOITER"
        then JObj (dict_set "message" (JStr "当前在 LOITER 模式，请切换到 GUIDED 模式以启用摇杆控制")
                     (dict_set "can_control" (JBool false) cs))
        else if String.eqb name "LAND"
        then JObj (dict_set "message" (JStr "当前在 LAND 模式，降落过程中摇杆不可用")
                     (dict_set "can_control" (JBool false) cs))
        else JObj (dict_set "message" (JStr "当前模式不支持摇杆控制")
                     (dict_set "can_control" (JBool false) cs))
    | None => JObj (dict_set "message" (JStr "无法获取飞行模式") blank)
    end
  else JObj blank.

Definition opt_num (o : option Q) : JSON :=
  match o with
  | Some q => JNum q
  | None => JNull
  end.

(** [get_basic_status()], lines 93-180 ([hasattr(vehicle, 'attitude')] is
    taken to hold). *)
Definition get_basic_status : Cmd (list (string * JSON)) :=
  ov <- gets vehicle ;;
  match ov with
  | None => ret []
  | Some v =>
      a <- safe_alt ;;
      tip <- gets takeoff_in_progress ;;
      tta <- gets takeoff_target_alt ;;
      lip <- gets landing_in_progress ;;
      ret [ ("mode", match mode_name v with Some n => JStr n | None => JNull end);
            ("armed", JBool (armed v));
            ("is_armable", read_or_null AIsArmable v);
            ("ekf_ok", read_or_null AEkfOk v);
            ("gps_fix", read_or_null AGpsFix v);
            ("satellites", read_or_null AGpsSatellites v);
            ("altitude", JNum a);
            ("groundspeed", read_or_null AGroundspeed v);
            ("heading", read_or_null AHeading v);
            ("attitude", read_or_null AAttitude v);
            ("battery", read_or_null ABattery v);
            ("takeoff_in_progress", JBool tip);
            ("takeoff_target_alt", opt_num tta);
            ("landing_in_progress", JBool lip);
            ("control_status", control_status_of v) ]
  end.

(** [print_blockers(prefix)], lines 182-204: takes a status snapshot and
    prints it. *)
Definition print_blockers : Cmd unit :=
  _ <- get_basic_status ;; ret tt.

(** ** Mode controller *)

Section Loops.

(** Bound on the iterations of each [while] loop. *)
Variable fuel : nat.

(** The polling loop of [ensure_mode], lines 231-238. *)
Fixpoint wait_for_mode (n : nat) (target : string) (t0 wait_each : Q) : Cmd bool :=
  match n with
  | O => no_fuel
  | S n' =>
      t <- time_time ;;
      if Qltb (t - t0) wait_each then
        hit <- try_except
                 (name <- vehicle_attr mode_name ;; ret (String.eqb name target))
                 (fun _ => ret false) ;;
        if hit then ret true
        else time_sleep (5 # 10) ;; wait_for_mode n' target t0 wait_each
      else ret false
  end.

(** The [for i in range(attempts)] loop of [ensure_mode], lines 222-245. *)
Fixpoint mode_attempts (k : nat) (target : string) (wait_each : Q) : Cmd bool :=
  match k with
  | O => ret false
  | S k' =>
      try_except (vehicle_request (EvSetMode target) (set_mode target))
                 (fun _ => ret tt) ;;
      t0 <- time_time ;;
      ok <- wait_for_mode fuel target t0 wait_each ;;
      if ok then ret true
      else print_blockers ;; mode_attempts k' target wait_each
  end.

(** [ensure_mode(target, attempts=3, wait_each=6.0)], lines 206-248. *)
Definition ensure_mode (target : string) (attempts : PyVal) (wait_each : Q) : Cmd bool :=
  present <- vehicle_present ;;
  if negb present then ret false
  else
    let target := upper target in
    already <- try_except
                 (name <- vehicle_attr mode_name ;; ret (String.eqb name target))
                 (fun _ => ret false) ;;
    if already then ret true
    else
      match py_range attempts with
      | inl e => raise e
      | inr k => mode_attempts k target wait_each
      end.

Definition default_attempts : PyVal := PyInt 3.
Definition default_wait_each : Q := 6.

(** ** Arm controller *)

(** [while not vehicle.armed and time.time() - t0 < 10: time.sleep(0.3)] *)
Fixpoint wait_armed (n : nat) (t0 : Q) : Cmd unit :=
  match n with
  | O => no_fuel
  | S n' =>
      a <- vehicle_attr (fun v => Some (armed v)) ;;
      t <- time_time ;;
      if negb a && Qltb (t - t0) 10 then
        time_sleep (3 # 10) ;; wait_armed n' t0
      else ret tt
  end.

(** [arm_vehicle()], lines 250-267. *)
Definition arm_vehicle : Cmd bool :=
  present <- vehicle_present ;;
  if negb present then ret false
  else
    a <- vehicle_attr (fun v => Some (armed v)) ;;
    if a then ret true
    else
      vehicle_request (EvSetArmed true) (fun v => Some (set_armed true v)) ;;
      t0 <- time_time ;;
      wait_armed fuel t0 ;;
      a' <- vehicle_attr (fun v => Some (armed v)) ;;
      if a' then ret true
      else print_blockers ;; ret false.

(** [while vehicle.armed and time.time() - t0 < 8: time.sleep(0.3)] *)
Fixpoint wait_disarmed (n : nat) (t0 : Q) : Cmd unit :=
  match n with
  | O => no_fuel
  | S n' =>
      a <- vehicle_attr (fun v => Some (armed v)) ;;
      t <- time_time ;;
      if a && Qltb (t - t0) 8 then
        time_sleep (3 # 10) ;; wait_disarmed n' t0
      else ret tt
  end.

(** [disarm_vehicle()], lines 269-289. *)
Definition disarm_vehicle : Cmd bool :=
  present <- vehicle_present ;;
  if negb present then ret false
  else
    a <- vehicle_attr (fun v => Some (armed v)) ;;
    if negb a then ret true
    else
      h <- safe_alt ;;
      if Qltb (2 # 10) h then
        _ <- safe_alt ;;            (* the altitude printed in the warning *)
        ret false
      else
        vehicle_request (EvSetArmed false) (fun v => Some (set_armed false v)) ;;
        t0 <- time_time ;;
        wait_disarmed fuel t0 ;;
        a' <- vehicle_attr (fun v => Some (armed v)) ;;
        if negb a' then ret true
        else ret false.

(** ** Velocity commands *)

(** The message built at lines 307-317: only [vx], [vy], [vz] are
    parameters; yaw and yaw_rate are the literal 0. *)
Definition ned_velocity_msg (vx vy vz : Q) : NedMsg :=
  {| time_boot_ms := 0;
     target_system := 0; target_component := 0;
     frame := 1;                       (* MAV_FRAME_LOCAL_NED *)
     type_mask := 0xfc7;               (* 0b0000111111000111 *)
     pos_x := 0; pos_y := 0; pos_z := 0;
     vel_x := vx; vel_y := vy; vel_z := vz;
     acc_x := 0; acc_y := 0; acc_z := 0;
     msg_yaw := 0;
     msg_yaw_rate := 0 |}.

(** [send_ned_velocity(vx, vy, vz, yaw_rate=0.0)], lines 297-321. *)
Definition send_ned_velocity (vx vy vz yaw_rate : Q) : Cmd unit :=
  present <- vehicle_present ;;
  if negb present then ret tt
  else
    let msg := ned_velocity_msg vx vy vz in
    try_except (vehicle_request (EvMavlink msg) (send_mavlink msg))
               (fun _ => ret tt).

(** ** Takeoff sequencer *)

(** The loop of [watcher], lines 359-366. *)
Fixpoint watch_altitude (n : nat) (target_alt t0 : Q) : Cmd unit :=
  match n with
  | O => no_fuel
  | S n' =>
      t <- time_time ;;
      if Qltb (t - t0) 30 then
        alt <- safe_alt ;;
        if Qleb (target_alt * (98 # 100)) alt then
          time_sleep 2                 (* break *)
        else time_sleep (5 # 10) ;; watch_altitude n' target_alt t0
      else ret tt
  end.

(** [watcher()], the closure of [do_takeoff], lines 354-369. *)
Definition watcher (target_alt : Q) : Cmd unit :=
  t0 <- time_time ;;
  watch_altitude fuel target_alt t0 ;;
  modify (with_takeoff_in_progress false) ;;
  _ <- safe_alt ;;
  ret tt.

(** [do_takeoff] after its two entry guards, lines 334-373. *)
Definition takeoff_sequence (target_alt : Q) : Cmd unit :=
  ok <- ensure_mode "GUIDED" (PyStr "GUIDED_NOGPS") default_wait_each ;;
  if negb ok then ret tt
  else
    armed_ok <- arm_vehicle ;;
    if negb armed_ok then ret tt
    else
      issued <- try_except
                  (vehicle_request (EvSimpleTakeoff target_alt)
                     (simple_takeoff target_alt) ;; ret true)
                  (fun _ => ret false) ;;
      if negb issued then ret tt
      else
        modify (with_takeoff_in_progress true) ;;
        modify (with_takeoff_target_alt (Some target_alt)) ;;
        emit (EvSpawn (ThWatcher target_alt)).

(** [do_takeoff(target_alt)], lines 325-373. *)
Definition do_takeoff (target_alt : Q) : Cmd unit :=
  present <- vehicle_present ;;
  if negb present then ret tt
  else
    h <- safe_alt ;;
    if Qltb (5 # 10) h then
      _ <- safe_alt ;;               (* the altitude printed in the message *)
      ret tt
    else takeoff_sequence target_alt.

(** ** Command router *)

(** [float(x)] on a parsed JSON value; an int too large for a double
    raises OverflowError. *)
Definition py_float (j : JSON) : Cmd Q :=
  match j with
  | JNum q =>
      if float_overflows q
      then raise (OverflowError "long int too large to convert to float")
      else ret q
  | JBool b => ret (if b then 1 else 0)
  | JStr s =>
      match float_of_text s with
      | Some q => ret q
      | None => raise (ValueError "could not convert string to float")
      end
  | JNull | JArr _ | JObj _ =>
      raise (TypeError "float() argument must be a string or a number")
  end.

(** [str(x)] on a parsed JSON value (Python 2: text outside ASCII cannot be
    encoded). *)
Definition py_str (j : JSON) : Cmd string :=
  match j with
  | JStr s =>
      if is_ascii s then ret s
      else raise (UnicodeEncodeError "'ascii' codec can't encode character")
  | JNull => ret "None"
  | JBool true => ret "True"
  | JBool false => ret "False"
  | JNum _ | JArr _ | JObj _ => ret (repr j)
  end.

(** [data.get(key, default)]: only a dict has [get]. *)
Definition data_get (data : JSON) (key : string) (default : JSON) : Cmd JSON :=
  match data with
  | JObj fields => ret (dict_get fields key default)
  | _ => raise (AttributeError "object has no attribute 'get'")
  end.

(** [typ == "..."] *)
Definition is_type (typ : JSON) (name : string) : bool :=
  match typ with
  | JStr s => String.eqb s name
  | _ => false
  end.

(** [self.write_message(json.dumps(obj))] *)
Definition write_message (fields : list (string * JSON)) : Cmd unit :=
  emit (EvReply (JObj fields)).

(** [list(recent_statustext)[-5:]] *)
Definition last5 {A} (l : list A) : list A := skipn (length l - 5) l.

Definition statustext_json (t : StatusText) : JSON :=
  JArr [JNum (st_time t); st_severity t; JStr (st_text t)].

Definition zero_cmd : VelocityCmd := {| vx := 0; vy := 0; vz := 0; yaw_rate := 0 |}.

Definition velocity_mode (name : string) : bool :=
  String.eqb name "GUIDED" || String.eqb name "GUIDED_NOGPS"
  || String.eqb name "POSHOLD".

(** The [joystick] branch, lines 393-420. *)
Definition on_joystick (data : JSON) : Cmd unit :=
  current_mode <- try_except
      (present <- vehicle_present ;;
       if present then name <- vehicle_attr mode_name ;; ret (Some name)
       else ret None)
      (fun _ => ret (Some EmptyString)) ;;
  if match current_mode with Some name => String.eqb name "LOITER" | None => false end
  then
    write_message [("type", JStr "ack"); ("cmd", JStr "joystick");
                   ("ok", JBool false);
                   ("msg", JStr "当前在 LOITER 模式，请切换到 GUIDED 模式以启用摇杆控制")]
  else
    jx <- data_get data "vx" (JNum 0) ;; x <- py_float jx ;;
    jy <- data_get data "vy" (JNum 0) ;; y <- py_float jy ;;
    jz <- data_get data "vz" (JNum 0) ;; z <- py_float jz ;;
    jr <- data_get data "yaw_rate" (JNum 0) ;; r <- py_float jr ;;
    t <- time_time ;;
    modify (with_command {| vx := x; vy := y; vz := z; yaw_rate := r |} t) ;;
    write_message [("type", JStr "ack"); ("cmd", JStr "joystick"); ("ok", JBool true)].

(** The [mode] branch, lines 423-430. *)
Definition on_mode (data : JSON) : Cmd unit :=
  jm <- data_get data "mode" (JStr EmptyString) ;;
  text <- py_str jm ;;
  let m := upper text in
  if String.eqb m EmptyString then
    write_message [("type", JStr "ack"); ("cmd", JStr "mode"); ("ok", JBool false);
                   ("msg", JStr "空模式")]
  else
    ok <- ensure_mode m default_attempts default_wait_each ;;
    write_message [("type", JStr "ack"); ("cmd", JStr "mode");
                   ("requested", JStr m); ("ok", JBool ok)].

(** The [brake] branch, lines 464-500. *)
Definition on_brake : Cmd unit :=
  present <- vehicle_present ;;
  if negb present then
    write_message [("type", JStr "ack"); ("cmd", JStr "brake"); ("ok", JBool false);
                   ("msg", JStr "vehicle not connected")]
  else
    a <- vehicle_attr (fun v => Some (armed v)) ;;
    if negb a then
      write_message [("type", JStr "ack"); ("cmd", JStr "brake"); ("ok", JBool false);
                     ("msg", JStr "not armed")]
    else
      try_except
        (name <- vehicle_attr mode_name ;;
         if velocity_mode name then
           send_ned_velocity 0 0 0 0 ;;
           modify (with_command zero_cmd 0) ;;
           write_message [("type", JStr "ack"); ("cmd", JStr "brake"); ("ok", JBool true)]
         else if String.eqb name "LOITER" then
           write_message [("type", JStr "ack"); ("cmd", JStr "brake"); ("ok", JBool true);
                          ("msg", JStr "当前在 LOITER 模式，已自动悬停。如需摇杆控制，请切换到 GUIDED 模式")]
         else
           ok <- ensure_mode "LOITER" default_attempts default_wait_each ;;
           write_message [("type", JStr "ack"); ("cmd", JStr "brake"); ("ok", JBool ok);
                          ("msg", JStr "switched to LOITER")])
        (fun e =>
           write_message [("type", JStr "ack"); ("cmd", JStr "brake"); ("ok", JBool false);
                          ("msg", JStr (exn_str e))]).

(** The [diag] branch, lines 503-509. *)
Definition on_diag : Cmd unit :=
  st <- get_basic_status ;;
  log <- gets recent_statustext ;;
  let st := dict_set "recent_statustext" (JArr (map statustext_json (last5 log))) st in
  write_message [("type", JStr "diag_reply"); ("diag", JObj st)].

(** [ControlWS.on_message(message)], lines 382-511. *)
Definition on_message (message : Frame) : Cmd unit :=
  match message with
  | Malformed detail =>
      write_message [("type", JStr "error"); ("msg", JStr "invalid json");
                     ("detail", JStr detail)]
  | Parsed data =>
      typ <- data_get data "type" JNull ;;
      if is_type typ "joystick" then on_joystick data
      else if is_type typ "mode" then on_mode data
      else if is_type typ "arm" then
        ok <- arm_vehicle ;;
        write_message [("type", JStr "ack"); ("cmd", JStr "arm"); ("ok", JBool ok)]
      else if is_type typ "disarm" then
        ok <- disarm_vehicle ;;
        write_message [("type", JStr "ack"); ("cmd", JStr "disarm"); ("ok", JBool ok)]
      else if is_type typ "takeoff" then
        ja <- data_get data "alt" (JNum DEFAULT_TAKEOFF_ALT) ;;
        alt <- py_float ja ;;
        emit (EvSpawn (ThDoTakeoff alt)) ;;
        write_message [("type", JStr "ack"); ("cmd", JStr "takeoff");
                       ("alt", JNum alt); ("ok", JBool true)]
      else if is_type typ "land" then
        ok <- ensure_mode "LAND" default_attempts default_wait_each ;;
        (if ok then modify (with_landing_in_progress true) else ret tt) ;;
        write_message [("type", JStr "ack"); ("cmd", JStr "land"); ("ok", JBool ok)]
      else if is_type typ "brake" then on_brake
      else if is_type typ "diag" then on_diag
      else
        write_message [("type", JStr "ack"); ("cmd", typ); ("ok", JBool false);
                       ("msg", JStr "unknown type")]
  end.

(** ** Control loop *)

Definition controllable_mode (name : string) : bool :=
  String.eqb name "GUIDED" || String.eqb name "GUIDED_NOGPS"
  || String.eqb name "BRAKE" || String.eqb name "POSHOLD".

(** One iteration of the [while True] of [control_loop], lines 548-580.
    [continue] ends the iteration without the final sleep. *)
Definition control_tick : Cmd unit :=
  try_except
    (present <- vehicle_present ;;
     a <- (if present then vehicle_attr (fun v => Some (armed v)) else ret false) ;;
     if a then
       tip <- gets takeoff_in_progress ;;
       lip <- gets landing_in_progress ;;
       if tip || lip then
         time_sleep (1 # 10)           (* continue *)
       else
         name <- try_except (vehicle_attr mode_name) (fun _ => ret EmptyString) ;;
         (if controllable_mode name then
            t <- time_time ;;
            last <- gets last_joystick_time ;;
            let age := t - last in
            cmd <- gets last_velocity_cmd ;;
            if Qltb VELOCITY_TIMEOUT age then
              send_ned_velocity 0 0 0 0
            else
              send_ned_velocity (vx cmd) (vy cmd) (vz cmd) (yaw_rate cmd)
          else if String.eqb name "LAND" then
            h <- safe_alt ;;
            if Qleb h (2 # 10) then
              lip' <- gets landing_in_progress ;;
              if lip' then modify (with_landing_in_progress false) else ret tt
            else ret tt
          else ret tt) ;;
         time_sleep (1 / CONTROL_HZ)
     else
       time_sleep (1 # 10) ;;
       time_sleep (1 / CONTROL_HZ))
    (fun _ => time_sleep (5 # 10)).

(** The loop itself never ends; [control_loop k] runs its first [k]
    iterations. *)
Fixpoint control_loop (k : nat) : Cmd unit :=
  match k with
  | O => ret tt
  | S k' => control_tick ;; control_loop k'
  end.

End Loops.

End Server.

Arguments ensure_mode {V DK} fuel target attempts wait_each.
Arguments arm_vehicle {V DK} fuel.
Arguments disarm_vehicle {V DK} fuel.
Arguments watcher {V DK} fuel target_alt.
Arguments takeoff_sequence {V DK} fuel target_alt.
Arguments do_takeoff {V DK} fuel target_alt.
Arguments on_message {V DK PY} fuel message.
Arguments control_tick {V DK}.
Arguments wait_for_mode : simpl never.
Arguments wait_armed : simpl never.
Arguments wait_disarmed : simpl never.
Arguments watch_altitude : simpl never.
Arguments mode_attempts : simpl never.
Arguments print_blockers : simpl never.
Arguments get_basic_status : simpl never.
Arguments ensure_mode : simpl never.
Arguments arm_vehicle : simpl never.
Arguments disarm_vehicle : simpl never.
Arguments py_float : simpl never.
Arguments float_overflows : simpl never.
Arguments py_str : simpl never.
Arguments dict_get : simpl never.

(** ** Status text log and telemetry broadcast *)

(** [collections.deque(maxlen=n).append(x)]: the oldest entries give way. *)
Definition deque_append {A} (maxlen : nat) (x : A) (d : list A) : list A :=
  let d' := d ++ [x] in
  skipn (length d' - maxlen) d'.

Definition STATUSTEXT_MAXLEN : nat := 50.

(** A STATUSTEXT message as the listener reads it: an attribute may be
    missing ([getattr] with a default). *)
Record StatusMsg : Type := {
  msg_text : option string;
  msg_severity : option JSON
}.

(** [s.replace('\x00', '')] *)
Fixpoint strip_nul (s : string) : string :=
  match s with
  | EmptyString => EmptyString
  | String c rest =>
      if Ascii.eqb c Ascii.zero then strip_nul rest
      else String c (strip_nul rest)
  end.

(** [int(x)] on a float: truncation towards zero. *)
Definition py_int (q : Q) : Z := Z.quot (Qnum q) (Zpos (Qden q)).

(** A telemetry subscriber: a connection handler, told apart by its
    identity; [write_message] raises on some of them. *)
Record Client : Type := {
  client_id : nat;
  write_fails : bool
}.

Definition client_eqb (c d : Client) : bool :=
  Nat.eqb (client_id c) (client_id d).

(** The first loop of a telemetry round, lines 604-609: the clients whose
    write raised, and the writes that went through. *)
Fixpoint broadcast (msg : JSON) (clients : list Client)
  : list Client * list (Client * JSON) :=
  match clients with
  | [] => ([], [])
  | c :: rest =>
      let (dead, sent) := broadcast msg rest in
      if write_fails c then (c :: dead, sent) else (dead, (c, msg) :: sent)
  end.

(** [telemetry_clients.remove(d)] *)
Fixpoint remove_client (d : Client) (clients : list Client) : list Client :=
  match clients with
  | [] => []
  | c :: rest => if client_eqb c d then rest else c :: remove_client d rest
  end.

(** The second loop, lines 610-612. *)
Definition prune (dead clients : list Client) : list Client :=
  fold_left
    (fun cs d => if existsb (client_eqb d) cs then remove_client d cs else cs)
    dead clients.

(** The packet of lines 589-602. *)
Definition telemetry_packet (st : list (string * JSON)) (cmd_age_ms stamp : Z)
  : JSON :=
  JObj [("type", JStr "telemetry");
        ("mode", dict_get st "mode" JNull);
        ("armed", dict_get st "armed" JNull);
        ("altitude", dict_get st "altitude" JNull);
        ("groundspeed", dict_get st "groundspeed" JNull);
        ("heading", dict_get st "heading" JNull);
        ("attitude", dict_get st "attitude" JNull);
        ("battery", dict_get st "battery" JNull);
        ("takeoff_in_progress", dict_get st "takeoff_in_progress" JNull);
        ("takeoff_target_alt", dict_get st "takeoff_target_alt" JNull);
        ("cmd_age_ms", JNum (inject_Z cmd_age_ms));
        ("timestamp", JNum (inject_Z stamp))].

Section Workers.

Context {V : Type} {DK : DroneKit V}.

Definition with_statustext (log : list StatusText) (w : World V) : World V :=
  mkWorld (vehicle w) (last_velocity_cmd w) (last_joystick_time w)
    (takeoff_in_progress w) (takeoff_target_alt w) (landing_in_progress w)
    log (now w) (trace w).

(** [_statustext_listener(self, name, msg)], lines 291-293. *)
Definition _statustext_listener (msg : StatusMsg) : M V unit :=
  let txt := strip_nul (match msg_text msg with
                        | Some t => t
                        | None => EmptyString
                        end) in
  t <- time_time ;;
  modify (fun w =>
    with_statustext
      (deque_append STATUSTEXT_MAXLEN
         {| st_time := t;
            st_severity := match msg_severity msg with
                           | Some sev => sev
                           | None => JNull
                           end;
            st_text := txt |}
         (recent_statustext w)) w).

(** The command age of line 588. *)
Definition cmd_age_ms_of (t last : Q) : Z :=
  if Qltb 0 last then py_int ((t - last) * 1000) else (-1)%Z.

(** One iteration of the [while True] of [telemetry_loop], lines 584-615.
    The set [telemetry_clients] is passed in and handed back with the
    writes that went through. *)
Definition telemetry_tick (telemetry_clients : list Client)
  : M V (list Client * list (Client * JSON)) :=
  try_except
    (present <- vehicle_present ;;
     r <- (if match telemetry_clients with [] => false | _ :: _ => true end
              && present
           then
             st <- get_basic_status ;;
             t <- time_time ;;
             last <- gets last_joystick_time ;;
             let cmd_age_ms := cmd_age_ms_of t last in
             stamp <- time_time ;;
             let pkt := telemetry_packet st cmd_age_ms (py_int (stamp * 1000)) in
             let (dead, sent) := broadcast pkt telemetry_clients in
             ret (prune dead telemetry_clients, sent)
           else ret (telemetry_clients, [])) ;;
     time_sleep TELEM_INTERVAL ;;
     ret r)
    (fun _ => time_sleep 1 ;; ret (telemetry_clients, [])).

End Workers.

(** The listener run on a sequence of messages. *)
Definition listen {V} {DK : DroneKit V} (msgs : list StatusMsg) (w : World V)
  : World V :=
  fold_left (fun w m => snd (_statustext_listener m w)) msgs w.

(** ** A simulated vehicle

    A small implementation of the interface, used to run the server on
    concrete inputs: an obedient vehicle changes mode and arm state as soon
    as it is asked to, any other one ignores the requests. *)

Record Sim : Type := {
  sim_mode : string;
  sim_armed : bool;
  sim_alt : AltReading;
  sim_obedient : bool
}.

#[export] Instance SimDroneKit : DroneKit Sim := {
  mode_name v := Some (sim_mode v);
  armed v := sim_armed v;
  alt_reading v := sim_alt v;
  attribute _ _ := None;
  set_mode s v :=
    Some (if sim_obedient v
          then {| sim_mode := s; sim_armed := sim_armed v;
                  sim_alt := sim_alt v; sim_obedient := true |}
          else v);
  set_armed b v :=
    if sim_obedient v
    then {| sim_mode := sim_mode v; sim_armed := b;
            sim_alt := sim_alt v; sim_obedient := true |}
    else v;
  simple_takeoff _ v := Some v;
  send_mavlink _ v := Some v;
  elapse _ v := v
}.

#[export] Instance SimPython : PyRuntime := {
  float_of_text _ := None;
  repr _ := "<repr>"
}.

Definition sim_world (v : Sim) (cmd : VelocityCmd) (last t : Q)
    (taking_off : bool) (target : option Q) (landing : bool) : World Sim :=
  mkWorld (Some v) cmd last taking_off target landing [] t [].

(** Concrete situations. *)

Definition sim_vehicle (mode : string) (is_armed : bool) (alt : AltReading) : Sim :=
  {| sim_mode := mode; sim_armed := is_armed; sim_alt := alt;
     sim_obedient := true |}.

Definition joystick_cmd : VelocityCmd :=
  {| vx := 1; vy := 0; vz := 0; yaw_rate := 1 # 2 |}.

(** Armed in GUIDED at 1 m, last joystick command at t = 0, now t = 0.6:
    the command is stale. *)
Definition w_stale : World Sim :=
  sim_world (sim_vehicle "GUIDED" true (AltValue 1)) joystick_cmd 0 (6 # 10)
    false None false.

(** The same at t = 0.1: the command is fresh. *)
Definition w_fresh : World Sim :=
  sim_world (sim_vehicle "GUIDED" true (AltValue 1)) joystick_cmd 0 (1 # 10)
    false None false.

(** A takeoff to 1.5 m in progress, the vehicle at 1.5 m. *)
Definition w_climbed : World Sim :=
  sim_world (sim_vehicle "GUIDED" true (AltValue (15 # 10))) joystick_cmd 0 (1 # 10)
    true (Some (15 # 10)) false.

(** A takeoff to 1.5 m in progress, the vehicle still on the ground. *)
Definition w_stuck_on_ground : World Sim :=
  sim_world (sim_vehicle "GUIDED" true (AltValue 0)) joystick_cmd 0 (1 # 10)
    true (Some (15 # 10)) false.

(** A landing in progress, armed in LAND, the vehicle at 0.1 m. *)
Definition w_touched_down : World Sim :=
  sim_world (sim_vehicle "LAND" true (AltValue (1 # 10))) joystick_cmd 0 (1 # 10)
    false None true.

(** Disarmed on the ground in STABILIZE. *)
Definition w_parked : World Sim :=
  sim_world (sim_vehicle "STABILIZE" false (AltValue 0)) zero_cmd 0 (1 # 10)
    false None false.

(** Disarmed, yet reporting 1 m of altitude. *)
Definition w_disarmed_aloft : World Sim :=
  sim_world (sim_vehicle "STABILIZE" false (AltValue 1)) zero_cmd 0 (1 # 10)
    false None false.

(** Armed at 1 m. *)
Definition w_aloft : World Sim :=
  sim_world (sim_vehicle "GUIDED" true (AltValue 1)) zero_cmd 0 (1 # 10)
    false None false.

(** Armed, with no location to read. *)
Definition w_blind : World Sim :=
  sim_world (sim_vehicle "GUIDED" true NoLocation) zero_cmd 0 (1 # 10)
    false None false.

Definition joystick_frame : Frame :=
  Parsed (JObj [("type", JStr "joystick"); ("vx", JNum 2); ("vy", JNum 1)]).

Definition diag_frame : Frame := Parsed (JObj [("type", JStr "diag")]).

Definition arm_frame : Frame := Parsed (JObj [("type", JStr "arm")]).

(** No vehicle connected. *)
Definition w_offline : World Sim :=
  mkWorld None zero_cmd 0 false None false [] (1 # 10) [].

(** Disarmed on the ground in STABILIZE, deaf to every request. *)
Definition v_deaf : Sim :=
  {| sim_mode := "STABILIZE"; sim_armed := false; sim_alt := AltValue 0;
     sim_obedient := false |}.

Definition w_deaf : World Sim :=
  sim_world v_deaf zero_cmd 0 (1 # 10) false None false.


(** Armed in LOITER at 1 m. *)
Definition w_loiter : World Sim :=
  sim_world (sim_vehicle "LOITER" true (AltValue 1)) joystick_cmd 0 (1 # 10)
    false None false.

Definition brake_fields : list (string * JSON) := [("type", JStr "brake")].
Definition land_fields : list (string * JSON) := [("type", JStr "land")].
Definition takeoff_fields : list (string * JSON) := [("type", JStr "takeoff")].
Definition mode_fields : list (string * JSON) := [("type", JStr "mode")].
Definition diag_fields : list (string * JSON) := [("type", JStr "diag")].
Definition joystick_fields : list (string * JSON) :=
  [("type", JStr "joystick"); ("vx", JNum 2); ("vy", JNum 1)].

Definition two_messages : list StatusMsg :=
  [ {| msg_text := Some "PreArm: GPS"; msg_severity := Some (JNum 4) |};
    {| msg_text := None; msg_severity := None |} ].

Definition two_clients : list Client :=
  [ {| client_id := 1; write_fails := false |};
    {| client_id := 2; write_fails := true |} ].

(** ** Notions used to state the properties *)

(** The velocity-controllable modes of the control loop, as names. *)
Definition controllable_modes : list string :=
  ["GUIDED"; "GUIDED_NOGPS"; "BRAKE"; "POSHOLD"].

(** A frame that [on_message] routes to its joystick branch. *)
Definition is_joystick_update (f : Frame) : bool :=
  match f with
  | Parsed (JObj fields) => is_type (dict_get fields "type" JNull) "joystick"
  | _ => false
  end.

(** The handler run on a sequence of frames, one after the other; a frame
    whose handling raises leaves the world as it was when it raised. *)
Definition deliver {V} {DK : DroneKit V} {PY : PyRuntime}
    (fuel : nat) (frames : list Frame) (w : World V) : World V :=
  fold_left (fun w f => snd (on_message fuel f w)) frames w.

(** The altitude cannot be read: no vehicle, no location, no frame, an
    [alt] of None, or a read that raises. *)
Definition altitude_unreadable {V} {DK : DroneKit V} (w : World V) : bool :=
  match vehicle w with
  | None => true
  | Some v =>
      match alt_reading v with
      | AltValue _ => false
      | AltRaises | NoLocation | NoFrame | AltNone => true
      end
  end.

(** The altitude that [safe_alt] reports for a vehicle. *)
Definition reported_alt {V} {DK : DroneKit V} (v : V) : Q :=
  match alt_reading v with
  | AltValue a => a
  | AltRaises | NoLocation | NoFrame | AltNone => 0
  end.

(** [evolves extra w w']: between [w] and [w'] time passed, the vehicle
    lived on (without appearing or disappearing) and the requests [extra]
    were traced; the globals of the server are the same. *)
Definition evolves {V} (extra : list Event) (w w' : World V) : Prop :=
  exists ov t,
    w' = mkWorld ov (last_velocity_cmd w) (last_joystick_time w)
           (takeoff_in_progress w) (takeoff_target_alt w)
           (landing_in_progress w) (recent_statustext w) t (trace w ++ extra)
    /\ (ov = None <-> vehicle w = None).

(** The time that [n] sleeps of [d] seconds cover. *)
Definition budget (n : nat) (d : Q) : Q := inject_Z (Z.of_nat n) * d.

(** [settles m w]: run from [w], [m] returns, and all it did to the world
    was to let time pass and to issue requests to the vehicle. *)
Definition settles {V A} (m : M V A) (w : World V) : Prop :=
  exists a w' extra,
    m w = (Ret a, w') /\ evolves extra w w' /\
    forallb is_vehicle_write extra = true.

(** *** Replies of the command router *)

(** A field of a reply object. *)
Definition field (r : JSON) (key : string) : option JSON :=
  match r with
  | JObj fields => assoc_get key fields
  | _ => None
  end.

(** [{"type":"error",...}] *)
Definition is_error_reply (r : JSON) : Prop :=
  field r "type" = Some (JStr "error").

(** [{"type":"ack","cmd":typ,"ok":bool,...}] *)
Definition is_ack_for (typ r : JSON) : Prop :=
  field r "type" = Some (JStr "ack") /\
  field r "cmd" = Some typ /\
  exists ok, field r "ok" = Some (JBool ok).

(** [{"type":"diag_reply","diag":{...}}] *)
Definition is_diag_reply (r : JSON) : Prop :=
  field r "type" = Some (JStr "diag_reply") /\
  exists st, field r "diag" = Some (JObj st).

(** The type of a request, [data.get("type")]. *)
Definition request_type (data : JSON) : JSON :=
  match data with
  | JObj fields => dict_get fields "type" JNull
  | _ => JNull
  end.

(** [float(x)] does not raise. *)
Definition floatable {PY : PyRuntime} (j : JSON) : bool :=
  match j with
  | JNum q => negb (float_overflows q)
  | JBool _ => true
  | JStr s => match float_of_text s with Some _ => true | None => false end
  | JNull | JArr _ | JObj _ => false
  end.

(** [str(x)] does not raise. *)
Definition printable (j : JSON) : bool :=
  match j with
  | JStr s => is_ascii s
  | _ => true
  end.

(** A frame the handler can take apart: malformed text (answered as such),
    or an object whose numeric fields (joystick axes, takeoff altitude)
    convert with [float] and whose mode field converts with [str]. *)
Definition well_formed {PY : PyRuntime} (f : Frame) : bool :=
  match f with
  | Malformed _ => true
  | Parsed (JObj fields) =>
      let typ := dict_get fields "type" JNull in
      if is_type typ "joystick" then
        floatable (dict_get fields "vx" (JNum 0))
        && floatable (dict_get fields "vy" (JNum 0))
        && floatable (dict_get fields "vz" (JNum 0))
        && floatable (dict_get fields "yaw_rate" (JNum 0))
      else if is_type typ "mode" then
        printable (dict_get fields "mode" (JStr EmptyString))
      else if is_type typ "takeoff" then
        floatable (dict_get fields "alt" (JNum DEFAULT_TAKEOFF_ALT))
      else true
  | Parsed _ => false
  end.

(** The one reply a frame is due. *)
Definition expected_reply (f : Frame) (r : JSON) : Prop :=
  match f with
  | Malformed _ => is_error_reply r
  | Parsed data =>
      if is_type (request_type data) "diag" then is_diag_reply r
      else is_ack_for (request_type data) r
  end.

(** [answers_once m w P]: run from [w], [m] returns having written exactly
    one reply, and the reply satisfies [P]. *)
Definition answers_once {V} (m : M V unit) (w : World V) (P : JSON -> Prop) : Prop :=
  exists w' r,
    m w = (Ret tt, w') /\
    replies (trace w') = replies (trace w) ++ [r] /\
    P r.

(** The vehicle reports the mode [target] ([vehicle.mode.name == target],
    a read that raises counting as no). *)
Definition reads_mode {V} {DK : DroneKit V} (target : string) (v : V) : bool :=
  match mode_name v with
  | Some name => String.eqb name target
  | None => false
  end.

(** The write to a subscriber goes through. *)
Definition delivers (c : Client) : bool := negb (write_fails c).

(** * Properties *)

(** Float comparisons as propositions. *)
Lemma Qltb_lt x y : Qltb x y = true <-> x < y.
Proof.
  unfold Qltb. rewrite negb_true_iff. split; intros H.
  - apply Qnot_le_lt. intros Hle. apply Qle_bool_iff in Hle. congruence.
  - destruct (Qle_bool y x) eqn:E; [|reflexivity].
    apply Qle_bool_iff in E. exfalso. apply (Qlt_not_le _ _ H E).
Qed.

Lemma Qltb_ge x y : Qltb x y = false <-> y <= x.
Proof.
  unfold Qltb. rewrite negb_false_iff. apply Qle_bool_iff.
Qed.

Lemma Qleb_le x y : Qleb x y = true <-> x <= y.
Proof. apply Qle_bool_iff. Qed.

Section Properties.

Context {V : Type} {DK : DroneKit V} {PY : PyRuntime}.

Abbreviation W := (World V).

Lemma controllable_mode_spec name :
  In name controllable_modes -> controllable_mode name = true.
Proof.
  unfold controllable_modes. cbn [In].
  intros [E | [E | [E | [E | []]]]]; subst name; reflexivity.
Qed.

(** Unfolding one layer of the monad. *)
Ltac run :=
  unfold bind, ret, gets, modify, try_except, raise, vehicle_present,
    vehicle_attr, vehicle_request, emit, time_time, time_sleep; cbn.

(** The same, rewriting with what is known about the world on the way. *)
Tactic Notation "run" "with" tactic3(known) :=
  repeat progress (run; known).

(** ** Mode controller *)

(** C9.  [ensure_mode(X)] while the vehicle already reports mode X (the
    comparison is with the upper-cased argument, as the function makes it)
    returns True at once and leaves the world as it was: no mode-change
    request is traced, whatever [attempts] and [wait_each] are. *)
Theorem ensure_mode_idempotent (fuel : nat) (w : W) (v : V)
    (target : string) (attempts : PyVal) (wait_each : Q) :
  vehicle w = Some v ->
  mode_name v = Some (upper target) ->
  ensure_mode fuel target attempts wait_each w = (Ret true, w).
Proof.
  intros Hv Hm. unfold ensure_mode.
  run with (rewrite ?Hv, ?Hm, ?String.eqb_refl). reflexivity.
Qed.

(** ** Arm controller *)

(** C7, as the code has it.  [disarm_vehicle()] with the vehicle available
    and the altitude above 0.2 m returns with the world untouched: no
    request is issued and the armed state is as before.  It returns
    failure when the vehicle is armed, and success (already disarmed) when
    it is not. *)
Theorem disarm_vehicle_airborne (fuel : nat) (w : W) (v : V) (a : Q) :
  vehicle w = Some v ->
  alt_reading v = AltValue a ->
  2 # 10 < a ->
  disarm_vehicle fuel w = (Ret (negb (armed v)), w).
Proof.
  intros Hv Ha Hlt. apply Qltb_lt in Hlt.
  unfold disarm_vehicle, safe_alt.
  run with (rewrite ?Hv).
  destruct (armed v); cbn; [|reflexivity].
  run with (rewrite ?Hv, ?Ha, ?Hlt). reflexivity.
Qed.

(** ** Control loop *)

(** C1.  A tick with the vehicle armed, no takeoff or landing in progress,
    a controllable mode and a stored command older than the 0.5 s watchdog
    timeout returns normally and sends exactly one velocity message, all of
    whose velocity components and yaw rate are 0, whatever the stored
    command holds. *)
Theorem control_tick_watchdog_zero (w : W) (v : V) (name : string) :
  vehicle w = Some v ->
  armed v = true ->
  takeoff_in_progress w = false ->
  landing_in_progress w = false ->
  mode_name v = Some name ->
  In name controllable_modes ->
  VELOCITY_TIMEOUT < now w - last_joystick_time w ->
  exists w' m,
    control_tick w = (Ret tt, w') /\
    trace w' = trace w ++ [EvMavlink m] /\
    vel_x m = 0 /\ vel_y m = 0 /\ vel_z m = 0 /\ msg_yaw_rate m = 0.
Proof.
  intros Hv Ha Ht Hl Hm Hin Hage.
  apply controllable_mode_spec in Hin. apply Qltb_lt in Hage.
  unfold control_tick, send_ned_velocity.
  run with (rewrite ?Hv, ?Ha, ?Ht, ?Hl, ?Hm, ?Hin, ?Hage).
  destruct (send_mavlink _ v); cbn;
    eexists; exists (ned_velocity_msg 0 0 0); repeat split.
Qed.

(** What the control loop hands to [send_ned_velocity] when the stored
    command is fresh, and what reaches the vehicle. *)
Lemma control_tick_fresh (w : W) (v : V) (name : string) :
  vehicle w = Some v ->
  armed v = true ->
  takeoff_in_progress w = false ->
  landing_in_progress w = false ->
  mode_name v = Some name ->
  In name controllable_modes ->
  now w - last_joystick_time w <= VELOCITY_TIMEOUT ->
  exists w',
    control_tick w = (Ret tt, w') /\
    trace w' = trace w ++
      [EvMavlink (ned_velocity_msg (vx (last_velocity_cmd w))
                    (vy (last_velocity_cmd w)) (vz (last_velocity_cmd w)))].
Proof.
  intros Hv Ha Ht Hl Hm Hin Hage.
  apply controllable_mode_spec in Hin. apply Qltb_ge in Hage.
  unfold control_tick, send_ned_velocity.
  run with (rewrite ?Hv, ?Ha, ?Ht, ?Hl, ?Hm, ?Hin, ?Hage).
  destruct (send_mavlink _ v); cbn; eexists; split; reflexivity.
Qed.

(** C4, as the code has it.  Under the conditions of C1 but with a stored
    command no older than the timeout, the tick sends exactly one velocity
    message whose vx, vy and vz are those of the stored command; the stored
    yaw_rate is handed to [send_ned_velocity], which does not transmit it:
    the message carries yaw rate 0 and its type mask has the ignore-yaw-rate
    bit (bit 11) set. *)
Theorem control_tick_forwards_velocity (w : W) (v : V) (name : string) :
  vehicle w = Some v ->
  armed v = true ->
  takeoff_in_progress w = false ->
  landing_in_progress w = false ->
  mode_name v = Some name ->
  In name controllable_modes ->
  now w - last_joystick_time w <= VELOCITY_TIMEOUT ->
  exists w' m,
    control_tick w = (Ret tt, w') /\
    trace w' = trace w ++ [EvMavlink m] /\
    vel_x m = vx (last_velocity_cmd w) /\
    vel_y m = vy (last_velocity_cmd w) /\
    vel_z m = vz (last_velocity_cmd w) /\
    msg_yaw_rate m = 0 /\
    Z.testbit (type_mask m) 11 = true.
Proof.
  intros Hv Ha Ht Hl Hm Hin Hage.
  destruct (control_tick_fresh w v name Hv Ha Ht Hl Hm Hin Hage) as (w' & E & T).
  exists w'. eexists. split; [exact E|]. split; [exact T|].
  repeat split.
Qed.

(** A tick during takeoff or landing only sleeps. *)
Lemma control_tick_in_phase (w : W) :
  takeoff_in_progress w || landing_in_progress w = true ->
  exists w', control_tick w = (Ret tt, w') /\ trace w' = trace w.
Proof.
  intros Hp. unfold control_tick.
  destruct (vehicle w) as [v|] eqn:Hv;
    [destruct (armed v) eqn:Ha|];
    run with (rewrite ?Hv, ?Ha, ?Hp);
    eexists; split; reflexivity.
Qed.

(** The control loop never clears [landing_in_progress] while it is set:
    the guard at lines 551-553 ends the iteration first. *)
Lemma control_tick_keeps_landing (w : W) :
  landing_in_progress w = true ->
  landing_in_progress (snd (control_tick w)) = true.
Proof.
  intros Hl. unfold control_tick.
  destruct (vehicle w) as [v|] eqn:Hv;
    [destruct (armed v) eqn:Ha|];
    run with (rewrite ?Hv, ?Ha, ?Hl, ?orb_true_r);
    reflexivity.
Qed.

Lemma velocities_sent_app (tr1 tr2 : list Event) :
  velocities_sent (tr1 ++ tr2) = velocities_sent tr1 ++ velocities_sent tr2.
Proof.
  induction tr1 as [|e tr1 IH]; [reflexivity|].
  destruct e; cbn; rewrite IH; reflexivity.
Qed.

(** Case analysis on whatever the goal still branches on. *)
Ltac split_cases :=
  repeat match goal with
         | |- context [match ?x with _ => _ end] =>
             lazymatch x with
             | context [match _ with _ => _ end] => fail
             | _ => destruct x eqn:?; cbn
             end
         end.

(** A joystick update touches the stored command and answers; it leaves
    the phase flags alone and sends no velocity. *)
Lemma on_joystick_flags (data : JSON) (w : W) :
  let w' := snd (on_joystick data w) in
  takeoff_in_progress w' = takeoff_in_progress w /\
  landing_in_progress w' = landing_in_progress w /\
  velocities_sent (trace w') = velocities_sent (trace w).
Proof.
  unfold on_joystick, write_message, data_get, py_float. run.
  split_cases; cbn; rewrite ?velocities_sent_app, ?app_nil_r; auto.
Qed.

Lemma deliver_joystick_flags (fuel : nat) (updates : list Frame) :
  forallb is_joystick_update updates = true ->
  forall w : W,
    takeoff_in_progress (deliver fuel updates w) = takeoff_in_progress w /\
    landing_in_progress (deliver fuel updates w) = landing_in_progress w /\
    velocities_sent (trace (deliver fuel updates w)) = velocities_sent (trace w).
Proof.
  induction updates as [|f updates IH]; cbn; intros Hall w; [auto|].
  apply andb_prop in Hall. destruct Hall as [Hf Hall].
  destruct (IH Hall (snd (on_message fuel f w))) as (Ht & Hl & Hs).
  unfold deliver in *. rewrite Ht, Hl, Hs.
  destruct f as [|data]; [discriminate|].
  destruct data; try discriminate. cbn in Hf.
  unfold on_message, data_get. run. rewrite Hf.
  apply on_joystick_flags.
Qed.

(** C2.  While [takeoff_in_progress] or [landing_in_progress] is set, a
    control-loop tick returns without tracing any request, so no velocity
    command reaches the vehicle; this holds in every world, and after any
    sequence of joystick updates delivered before the tick (the updates
    themselves send no velocity either). *)
Theorem control_tick_silent_in_phase (fuel : nat) (updates : list Frame) (w : W) :
  forallb is_joystick_update updates = true ->
  takeoff_in_progress w || landing_in_progress w = true ->
  exists w',
    control_tick (deliver fuel updates w) = (Ret tt, w') /\
    trace w' = trace (deliver fuel updates w) /\
    velocities_sent (trace w') = velocities_sent (trace w).
Proof.
  intros Hall Hp.
  destruct (deliver_joystick_flags fuel updates Hall w) as (Ht & Hl & Hs).
  destruct (control_tick_in_phase (deliver fuel updates w)) as (w' & E & T).
  - rewrite Ht, Hl. exact Hp.
  - exists w'. rewrite T. auto.
Qed.

(** ** Takeoff sequencer *)

(** Outside GUIDED the mode step of [do_takeoff] raises: the string
    "GUIDED_NOGPS" lands in the [attempts] parameter of [ensure_mode] and
    [range] rejects it, before any request is made. *)
Lemma do_takeoff_type_error (fuel : nat) (target_alt : Q) (w : W) (v : V) :
  vehicle w = Some v ->
  reported_alt v <= 5 # 10 ->
  mode_name v <> Some "GUIDED" ->
  do_takeoff fuel target_alt w =
    (Raise (TypeError "range() integer end argument expected, got str"), w).
Proof.
  intros Hv Ha Hm. apply Qltb_ge in Ha.
  assert (Hg : match mode_name v with
               | Some name => String.eqb name "GUIDED"
               | None => false
               end = false).
  { destruct (mode_name v) as [name|]; [|reflexivity].
    destruct (String.eqb_spec name "GUIDED") as [->|]; [congruence|reflexivity]. }
  unfold do_takeoff, takeoff_sequence, ensure_mode, safe_alt.
  change (upper "GUIDED") with "GUIDED".
  unfold reported_alt in Ha.
  destruct (alt_reading v) eqn:Hr;
    run with (rewrite ?Hv, ?Hr, ?Ha);
    destruct (mode_name v) as [name|]; cbn in *; rewrite ?Hg; reflexivity.
Qed.

(** ** Polling loops *)

Lemma evolves_refl (w : W) : evolves [] w w.
Proof.
  exists (vehicle w), (now w). rewrite app_nil_r.
  destruct w; cbn. split; [reflexivity|tauto].
Qed.

Lemma evolves_trans (e1 e2 : list Event) (w w1 w2 : W) :
  evolves e1 w w1 -> evolves e2 w1 w2 -> evolves (e1 ++ e2) w w2.
Proof.
  intros (ov1 & t1 & -> & H1) (ov2 & t2 & -> & H2). cbn in *.
  exists ov2, t2. rewrite app_assoc. split; [reflexivity|tauto].
Qed.

Lemma evolves_sleep (d : Q) (w : W) :
  evolves [] w (with_now (now w + d)
                  (with_vehicle (option_map (elapse d) (vehicle w)) w)).
Proof.
  eexists _, _. unfold with_now, with_vehicle; cbn. rewrite app_nil_r.
  split; [reflexivity|].
  destruct (vehicle w); cbn; split; congruence.
Qed.

Lemma evolves_present (e : list Event) (w w' : W) (v : V) :
  evolves e w w' -> vehicle w = Some v -> exists v', vehicle w' = Some v'.
Proof.
  intros (ov & t & -> & H) Hv. cbn.
  destruct ov as [v'|]; [eauto|]. destruct H as [H _].
  rewrite H in Hv by reflexivity. discriminate.
Qed.

Lemma evolves_replies (e : list Event) (w w' : W) :
  evolves e w w' -> forallb is_vehicle_write e = true ->
  replies (trace w') = replies (trace w).
Proof.
  intros (ov & t & -> & _) He. cbn.
  induction (trace w) as [|x tr IH]; cbn.
  - induction e as [|x e IH]; [reflexivity|].
    cbn in He. apply andb_prop in He. destruct He as [Hx He].
    destruct x; try discriminate; cbn; auto.
  - destruct x; cbn; rewrite IH; reflexivity.
Qed.

Lemma budget_0 (d : Q) : budget 0 d == 0.
Proof. unfold budget. cbn. ring. Qed.

Lemma budget_S (n : nat) (d : Q) : budget (S n) d == budget n d + d.
Proof.
  unfold budget. rewrite Nat2Z.inj_succ. unfold Z.succ.
  rewrite inject_Z_plus. ring.
Qed.

Lemma budget_mono (n m : nat) (d : Q) :
  (n <= m)%nat -> 0 <= d -> budget n d <= budget m d.
Proof.
  intros Hnm Hd. unfold budget. apply Qmult_le_compat_r; [|exact Hd].
  rewrite <- Zle_Qle. lia.
Qed.

Lemma wait_for_mode_eq (n : nat) (target : string) (t0 wait_each : Q) :
  wait_for_mode (S n) target t0 wait_each =
  (t <- time_time ;;
   if Qltb (t - t0) wait_each then
     hit <- try_except
              (name <- vehicle_attr mode_name ;; ret (String.eqb name target))
              (fun _ => ret false) ;;
     if hit then ret true
     else time_sleep (5 # 10) ;; wait_for_mode n target t0 wait_each
   else ret false).
Proof. reflexivity. Qed.

(** The poll of [ensure_mode] ends within its time budget. *)
Lemma wait_for_mode_spec (target : string) (t0 wait_each : Q) (n : nat) :
  forall w : W,
    wait_each - (now w - t0) <= budget n (5 # 10) ->
    exists b w',
      wait_for_mode (S n) target t0 wait_each w = (Ret b, w') /\
      evolves [] w w'.
Proof.
  induction n as [|n IH]; intros w Hb; rewrite wait_for_mode_eq;
    destruct (Qltb (now w - t0) wait_each) eqn:Hc;
    try (run; rewrite Hc; exists false, w;
         split; [reflexivity|apply evolves_refl]).
  - apply Qltb_lt in Hc. rewrite budget_0 in Hb. lra.
  - pose proof (proj1 (Qltb_lt _ _) Hc) as Hlt. rewrite budget_S in Hb.
    pose proof (evolves_sleep (5 # 10) w) as Hs.
    destruct (vehicle w) as [v|] eqn:Hv;
      [destruct (mode_name v) as [name|] eqn:Hm;
       [destruct (String.eqb name target) eqn:He|]|];
      run with (rewrite ?Hc, ?Hv, ?Hm, ?He);
      try (exists true, w; split; [reflexivity|apply evolves_refl]);
      match goal with
      | |- context [wait_for_mode (S n) _ _ _ ?w1] =>
          destruct (IH w1) as (b & w' & E & Ev); [cbn; lra|];
          exists b, w'; split; [exact E|];
          exact (evolves_trans [] [] w _ w' Hs Ev)
      end.
Qed.

Lemma wait_armed_eq (n : nat) (t0 : Q) :
  wait_armed (S n) t0 =
  (a <- vehicle_attr (fun v => Some (armed v)) ;;
   t <- time_time ;;
   if negb a && Qltb (t - t0) 10 then
     time_sleep (3 # 10) ;; wait_armed n t0
   else ret tt).
Proof. reflexivity. Qed.

(** The poll of [arm_vehicle] ends within its 10 s. *)
Lemma wait_armed_spec (t0 : Q) (n : nat) :
  forall (w : W) (v : V),
    vehicle w = Some v ->
    10 - (now w - t0) <= budget n (3 # 10) ->
    exists w', wait_armed (S n) t0 w = (Ret tt, w') /\ evolves [] w w'.
Proof.
  induction n as [|n IH]; intros w v Hv Hb; rewrite wait_armed_eq;
    destruct (negb (armed v) && Qltb (now w - t0) 10) eqn:Hc;
    try (run with (rewrite ?Hv, ?Hc); exists w;
         split; [reflexivity|apply evolves_refl]).
  - apply andb_prop in Hc. destruct Hc as [_ Hc]. apply Qltb_lt in Hc.
    rewrite budget_0 in Hb. lra.
  - pose proof (proj2 (andb_prop _ _ Hc)) as Hlt. apply Qltb_lt in Hlt.
    rewrite budget_S in Hb.
    pose proof (evolves_sleep (3 # 10) w) as Hs.
    run with (rewrite ?Hv, ?Hc).
    match goal with
    | |- context [wait_armed (S n) _ ?w1] =>
        destruct (IH w1 (elapse (3 # 10) v)) as (w' & E & Ev);
          [reflexivity|cbn; lra|];
        exists w'; split; [exact E|];
        rewrite Hv in Hs; exact (evolves_trans [] [] w _ w' Hs Ev)
    end.
Qed.

Lemma wait_disarmed_eq (n : nat) (t0 : Q) :
  wait_disarmed (S n) t0 =
  (a <- vehicle_attr (fun v => Some (armed v)) ;;
   t <- time_time ;;
   if a && Qltb (t - t0) 8 then
     time_sleep (3 # 10) ;; wait_disarmed n t0
   else ret tt).
Proof. reflexivity. Qed.

(** The poll of [disarm_vehicle] ends within its 8 s. *)
Lemma wait_disarmed_spec (t0 : Q) (n : nat) :
  forall (w : W) (v : V),
    vehicle w = Some v ->
    8 - (now w - t0) <= budget n (3 # 10) ->
    exists w', wait_disarmed (S n) t0 w = (Ret tt, w') /\ evolves [] w w'.
Proof.
  induction n as [|n IH]; intros w v Hv Hb; rewrite wait_disarmed_eq;
    destruct (armed v && Qltb (now w - t0) 8) eqn:Hc;
    try (run with (rewrite ?Hv, ?Hc); exists w;
         split; [reflexivity|apply evolves_refl]).
  - apply andb_prop in Hc. destruct Hc as [_ Hc]. apply Qltb_lt in Hc.
    rewrite budget_0 in Hb. lra.
  - pose proof (proj2 (andb_prop _ _ Hc)) as Hlt. apply Qltb_lt in Hlt.
    rewrite budget_S in Hb.
    pose proof (evolves_sleep (3 # 10) w) as Hs.
    run with (rewrite ?Hv, ?Hc).
    match goal with
    | |- context [wait_disarmed (S n) _ ?w1] =>
        destruct (IH w1 (elapse (3 # 10) v)) as (w' & E & Ev);
          [reflexivity|cbn; lra|];
        exists w'; split; [exact E|];
        rewrite Hv in Hs; exact (evolves_trans [] [] w _ w' Hs Ev)
    end.
Qed.

Lemma watch_altitude_eq (n : nat) (target_alt t0 : Q) :
  watch_altitude (S n) target_alt t0 =
  (t <- time_time ;;
   if Qltb (t - t0) 30 then
     alt <- safe_alt ;;
     if Qleb (target_alt * (98 # 100)) alt then time_sleep 2
     else time_sleep (5 # 10) ;; watch_altitude n target_alt t0
   else ret tt).
Proof. reflexivity. Qed.

Lemma safe_alt_pure (w : W) : exists a, safe_alt w = (Ret a, w).
Proof.
  unfold safe_alt. run.
  destruct (vehicle w) as [v|]; [destruct (alt_reading v)|]; eauto.
Qed.

(** The monitor loop ends on either exit: target reached, or 30 s over. *)
Lemma watch_altitude_spec (target_alt t0 : Q) (n : nat) :
  forall w : W,
    30 - (now w - t0) <= budget n (5 # 10) ->
    exists w', watch_altitude (S n) target_alt t0 w = (Ret tt, w') /\
               evolves [] w w'.
Proof.
  induction n as [|n IH]; intros w Hb; rewrite watch_altitude_eq;
    destruct (Qltb (now w - t0) 30) eqn:Hc;
    try (run; rewrite Hc; exists w; split; [reflexivity|apply evolves_refl]).
  - apply Qltb_lt in Hc. rewrite budget_0 in Hb. lra.
  - pose proof (proj1 (Qltb_lt _ _) Hc) as Hlt. rewrite budget_S in Hb.
    destruct (safe_alt_pure w) as [a Ha].
    unfold bind at 1. unfold time_time, gets. rewrite Hc.
    unfold bind at 1. rewrite Ha.
    destruct (Qleb (target_alt * (98 # 100)) a).
    + eexists. split; [reflexivity|apply evolves_sleep].
    + pose proof (evolves_sleep (5 # 10) w) as Hs. run.
      match goal with
      | |- context [watch_altitude (S n) _ _ ?w1] =>
          destruct (IH w1) as (w' & E & Ev); [cbn; lra|];
          exists w'; split; [exact E|];
          exact (evolves_trans [] [] w _ w' Hs Ev)
      end.
Qed.

(** ** The controllers return *)

Lemma get_basic_status_pure (w : W) :
  exists st, get_basic_status w = (Ret st, w).
Proof.
  unfold get_basic_status, safe_alt.
  destruct (vehicle w) as [v|] eqn:Hv;
    [destruct (alt_reading v) eqn:Ha|];
    run with (rewrite ?Hv, ?Ha); eauto.
Qed.

Lemma print_blockers_pure (w : W) : print_blockers w = (Ret tt, w).
Proof.
  unfold print_blockers, bind.
  destruct (get_basic_status_pure w) as [st ->]. reflexivity.
Qed.

Lemma evolves_request (e : Event) (ov : option V) (w : W) :
  (ov = None <-> vehicle w = None) ->
  evolves [e] w (with_vehicle ov (with_trace (trace w ++ [e]) w)).
Proof.
  intros H. exists ov, (now w). split; [reflexivity|exact H].
Qed.

Lemma fuel_pred (k fuel : nat) :
  (S k <= fuel)%nat -> exists f, fuel = S f /\ (k <= f)%nat.
Proof. intros H. destruct fuel as [|f]; [lia|]. exists f. split; [reflexivity|lia]. Qed.

(** [arm_vehicle] returns a verdict once its poll has fuel for 10 s. *)
Lemma arm_vehicle_settles (fuel : nat) (w : W) :
  (35 <= fuel)%nat -> settles (arm_vehicle fuel) w.
Proof.
  intros Hf. destruct (fuel_pred 34 fuel Hf) as (f & -> & Hf').
  unfold settles, arm_vehicle.
  destruct (vehicle w) as [v|] eqn:Hv;
    [destruct (armed v) eqn:Ha|];
    run with (rewrite ?Hv, ?Ha);
    try (eexists _, w, []; split; [reflexivity|];
         split; [apply evolves_refl|reflexivity]).
  match goal with
  | |- context [wait_armed (S f) ?t0 ?w1] =>
      pose proof (evolves_request (EvSetArmed true) (Some (set_armed true v)) w) as Hr;
      destruct (wait_armed_spec t0 f w1 (set_armed true v)) as (w2 & E & Ev)
  end.
  - reflexivity.
  - cbn. assert (H34 : 10 <= budget 34 (3 # 10)) by (vm_compute; discriminate).
    pose proof (budget_mono 34 f (3 # 10) Hf' ltac:(lra)) as Hm. lra.
  - rewrite E. cbn.
    assert (Hw : evolves [EvSetArmed true] w w2).
    { refine (evolves_trans [EvSetArmed true] [] w _ w2 _ Ev).
      apply Hr. rewrite Hv. split; discriminate. }
    destruct (evolves_present _ _ _ v Hw Hv) as [v2 Hv2].
    run with (rewrite ?Hv2, ?print_blockers_pure).
    destruct (armed v2); cbn; rewrite ?print_blockers_pure;
      eexists _, w2, _;
      (split; [reflexivity|split; [exact Hw|reflexivity]]).
Qed.

(** [disarm_vehicle] returns a verdict once its poll has fuel for 8 s. *)
Lemma disarm_vehicle_settles (fuel : nat) (w : W) :
  (28 <= fuel)%nat -> settles (disarm_vehicle fuel) w.
Proof.
  intros Hf. destruct (fuel_pred 27 fuel Hf) as (f & -> & Hf').
  unfold settles, disarm_vehicle, safe_alt.
  destruct (vehicle w) as [v|] eqn:Hv;
    [destruct (armed v) eqn:Ha;
     [destruct (alt_reading v) eqn:Hr;
      [| | | |destruct (Qltb (2 # 10) a) eqn:Hh]|]|];
    run with (rewrite ?Hv, ?Ha, ?Hr, ?Hh);
    try (eexists _, w, []; split; [reflexivity|];
         split; [apply evolves_refl|reflexivity]).
  all: match goal with
  | |- context [wait_disarmed (S ?n) ?t0 ?w1] =>
      pose proof (evolves_request (EvSetArmed false) (Some (set_armed false v)) w) as Hq;
      destruct (wait_disarmed_spec t0 n w1 (set_armed false v)) as (w2 & E & Ev);
        [reflexivity
        |cbn; assert (H27 : 8 <= budget 27 (3 # 10)) by (vm_compute; discriminate);
         pose proof (budget_mono 27 f (3 # 10) Hf' ltac:(lra)) as Hm; lra
        |]
  end.
  all: rewrite E; cbn;
    assert (Hw : evolves [EvSetArmed false] w w2)
      by (refine (evolves_trans [EvSetArmed false] [] w _ w2 _ Ev);
          apply Hq; rewrite Hv; split; discriminate);
    destruct (evolves_present _ _ _ v Hw Hv) as [v2 Hv2];
    run with (rewrite ?Hv2);
    destruct (armed v2); cbn;
      eexists _, w2, _;
      (split; [reflexivity|split; [exact Hw|reflexivity]]).
Qed.

Lemma mode_attempts_eq (fuel k : nat) (target : string) (wait_each : Q) :
  mode_attempts fuel (S k) target wait_each =
  (try_except (vehicle_request (EvSetMode target) (set_mode target))
              (fun _ => ret tt) ;;
   t0 <- time_time ;;
   ok <- wait_for_mode fuel target t0 wait_each ;;
   if ok then ret true
   else print_blockers ;; mode_attempts fuel k target wait_each).
Proof. reflexivity. Qed.

(** A mode request whose exception is swallowed always goes through. *)
Lemma set_mode_caught (target : string) (w : W) :
  exists w1,
    try_except (vehicle_request (EvSetMode target) (set_mode target))
               (fun _ => ret tt) w = (Ret tt, w1) /\
    evolves [EvSetMode target] w w1 /\ now w1 = now w.
Proof.
  destruct (vehicle w) as [v|] eqn:Hv;
    [destruct (set_mode target v) as [v'|] eqn:Hs|];
    run with (rewrite ?Hv, ?Hs);
    eexists; (split; [reflexivity|]); (split; [|reflexivity]).
  - apply (evolves_request _ (Some v') w). rewrite Hv. split; discriminate.
  - exists (vehicle w), (now w). split; [reflexivity|tauto].
  - exists (vehicle w), (now w). split; [reflexivity|tauto].
Qed.

Lemma settles_intro {A} (m : M V A) (w w' : W) (a : A) (extra : list Event) :
  m w = (Ret a, w') -> evolves extra w w' ->
  forallb is_vehicle_write extra = true -> settles m w.
Proof. intros E Ev Hx. exists a, w', extra. auto. Qed.

Lemma settles_after {A} (m : M V A) (w w1 : W) (extra : list Event)
    (r : Outcome A * W) :
  evolves extra w w1 -> forallb is_vehicle_write extra = true ->
  (exists a w' extra', r = (Ret a, w') /\ evolves extra' w1 w' /\
                       forallb is_vehicle_write extra' = true) ->
  m w = r -> settles m w.
Proof.
  intros Ev Hx (a & w' & extra' & -> & Ev' & Hx') E.
  exists a, w', (extra ++ extra'). split; [exact E|]. split.
  - exact (evolves_trans _ _ _ _ _ Ev Ev').
  - rewrite forallb_app, Hx, Hx'. reflexivity.
Qed.

(** The attempts of [ensure_mode] return once each poll has fuel for 6 s. *)
Lemma mode_attempts_settles (fuel : nat) (target : string) (k : nat) :
  (13 <= fuel)%nat ->
  forall w : W, settles (mode_attempts fuel k target default_wait_each) w.
Proof.
  intros Hf. destruct (fuel_pred 12 fuel Hf) as (f & -> & Hf').
  induction k as [|k IH]; intros w.
  - apply (settles_intro _ w w false []);
      [reflexivity|apply evolves_refl|reflexivity].
  - destruct (set_mode_caught target w) as (w1 & E1 & Ev1 & Hn).
    destruct (wait_for_mode_spec target (now w1) default_wait_each f w1)
      as (ok & w2 & E2 & Ev2).
    { assert (H12 : 6 <= budget 12 (5 # 10)) by (vm_compute; discriminate).
      pose proof (budget_mono 12 f (5 # 10) Hf' ltac:(lra)) as Hm.
      unfold default_wait_each. lra. }
    pose proof (evolves_trans _ _ _ _ _ Ev1 Ev2) as Ev.
    apply (settles_after _ w w2 _
             (if ok then (Ret true, w2)
              else mode_attempts (S f) k target default_wait_each w2) Ev);
      [reflexivity| |].
    + destruct ok.
      * exists true, w2, []. split; [reflexivity|].
        split; [apply evolves_refl|reflexivity].
      * apply IH.
    + rewrite mode_attempts_eq. unfold bind at 1. rewrite E1.
      unfold bind at 1. unfold time_time, gets.
      unfold bind at 1. rewrite E2.
      destruct ok; [reflexivity|].
      unfold bind at 1. rewrite print_blockers_pure. reflexivity.
Qed.

(** [ensure_mode] with an integer number of attempts and the default wait
    returns a verdict. *)
Lemma ensure_mode_settles (fuel : nat) (target : string) (k : Z) (w : W) :
  (13 <= fuel)%nat ->
  settles (ensure_mode fuel target (PyInt k) default_wait_each) w.
Proof.
  intros Hf. unfold settles, ensure_mode.
  destruct (vehicle w) as [v|] eqn:Hv;
    [destruct (mode_name v) as [name|] eqn:Hm;
     [destruct (String.eqb name (upper target)) eqn:He|]|];
    run with (rewrite ?Hv, ?Hm, ?He);
    try exact (mode_attempts_settles fuel (upper target) (Z.to_nat k) Hf w);
    eexists _, w, []; (split; [reflexivity|]);
    (split; [apply evolves_refl|reflexivity]).
Qed.

(** ** Command router *)

Lemma replies_app (tr1 tr2 : list Event) :
  replies (tr1 ++ tr2) = replies tr1 ++ replies tr2.
Proof.
  induction tr1 as [|e tr1 IH]; [reflexivity|].
  destruct e; cbn; rewrite IH; reflexivity.
Qed.

Lemma answers_write (fields : list (string * JSON)) (w : W) (P : JSON -> Prop) :
  P (JObj fields) -> answers_once (write_message fields) w P.
Proof.
  intros HP. eexists _, (JObj fields). unfold write_message. run.
  split; [reflexivity|]. split; [cbn; rewrite replies_app; reflexivity|exact HP].
Qed.

Lemma answers_after {A} (m : M V A) (k : A -> M V unit) (w : W)
    (P : JSON -> Prop) :
  settles m w ->
  (forall a w1, answers_once (k a) w1 P) ->
  answers_once (bind m k) w P.
Proof.
  intros (a & w1 & extra & E & Ev & Hx) Hk.
  destruct (Hk a w1) as (w' & r & E' & Hr & HP).
  exists w', r. unfold bind. rewrite E. split; [exact E'|].
  rewrite Hr, (evolves_replies _ _ _ Ev Hx). auto.
Qed.

Lemma answers_pure {A} (m : M V A) (k : A -> M V unit) (w : W) (a : A)
    (P : JSON -> Prop) :
  m w = (Ret a, w) -> answers_once (k a) w P -> answers_once (bind m k) w P.
Proof.
  intros E (w' & r & E' & H). exists w', r. unfold bind. rewrite E. auto.
Qed.

Lemma is_type_eq (typ : JSON) (name : string) :
  is_type typ name = true -> typ = JStr name.
Proof.
  destruct typ; cbn; try discriminate.
  intros H. apply String.eqb_eq in H. congruence.
Qed.

Lemma ack_intro (name : string) (ok : bool) (more : list (string * JSON)) :
  is_ack_for (JStr name)
    (JObj (("type", JStr "ack") :: ("cmd", JStr name) :: ("ok", JBool ok) :: more)).
Proof.
  unfold is_ack_for. cbn. repeat split. exists ok. reflexivity.
Qed.

Lemma py_float_ok (j : JSON) :
  floatable j = true -> exists q, forall w : W, py_float j w = (Ret q, w).
Proof.
  unfold py_float, floatable.
  destruct j as [|b|q|s| |]; try discriminate;
    try (intros _; eexists; reflexivity).
  - destruct (float_overflows q); [discriminate|].
    intros _. eexists. reflexivity.
  - destruct (float_of_text s); [intros _; eexists; reflexivity|discriminate].
Qed.

Lemma py_str_ok (j : JSON) :
  printable j = true -> exists s, forall w : W, py_str j w = (Ret s, w).
Proof.
  unfold py_str, printable.
  destruct j as [|[|]|q|s| |]; try (intros _; eexists; reflexivity).
  intros ->. eexists; reflexivity.
Qed.

(** The joystick branch acknowledges: negatively in LOITER, positively
    once the four axes are stored. *)
Lemma on_joystick_answers (fields : list (string * JSON)) (w : W) :
  floatable (dict_get fields "vx" (JNum 0)) = true ->
  floatable (dict_get fields "vy" (JNum 0)) = true ->
  floatable (dict_get fields "vz" (JNum 0)) = true ->
  floatable (dict_get fields "yaw_rate" (JNum 0)) = true ->
  answers_once (on_joystick (JObj fields)) w (is_ack_for (JStr "joystick")).
Proof.
  intros Hx Hy Hz Hr.
  destruct (py_float_ok _ Hx) as [qx Ex]. destruct (py_float_ok _ Hy) as [qy Ey].
  destruct (py_float_ok _ Hz) as [qz Ez]. destruct (py_float_ok _ Hr) as [qr Er].
  unfold answers_once, on_joystick, write_message, data_get.
  destruct (vehicle w) as [v|] eqn:Hv;
    [destruct (mode_name v) as [name|] eqn:Hm;
     [destruct (String.eqb name "LOITER") eqn:Hl|]|];
    run with (rewrite ?Hv, ?Hm, ?Hl, ?Ex, ?Ey, ?Ez, ?Er);
    eexists _, _; (split; [reflexivity|]);
    (split; [cbn; rewrite replies_app; reflexivity|apply ack_intro]).
Qed.

(** The mode branch acknowledges, whatever [ensure_mode] finds. *)
Lemma on_mode_answers (fuel : nat) (fields : list (string * JSON)) (w : W) :
  (13 <= fuel)%nat ->
  printable (dict_get fields "mode" (JStr EmptyString)) = true ->
  answers_once (on_mode fuel (JObj fields)) w (is_ack_for (JStr "mode")).
Proof.
  intros Hf Hp. destruct (py_str_ok _ Hp) as [text Et].
  unfold on_mode.
  apply (answers_pure _ _ _ _ _ eq_refl).
  apply (answers_pure _ _ _ _ _ (Et w)).
  destruct (String.eqb (upper text) EmptyString).
  - apply answers_write, ack_intro.
  - apply answers_after; [apply ensure_mode_settles, Hf|].
    intros ok w1. apply answers_write.
    unfold is_ack_for. cbn. eauto.
Qed.

(** [send_ned_velocity] always returns. *)
Lemma send_ned_velocity_settles (x y z r : Q) (w : W) :
  settles (send_ned_velocity x y z r) w.
Proof.
  unfold settles, send_ned_velocity.
  destruct (vehicle w) as [v|] eqn:Hv;
    [destruct (send_mavlink (ned_velocity_msg x y z) v) as [v'|] eqn:Hs|];
    run with (rewrite ?Hv, ?Hs).
  - eexists tt, _, [EvMavlink _]. split; [reflexivity|]. split; [|reflexivity].
    apply (evolves_request _ (Some v') w). rewrite Hv. split; discriminate.
  - eexists tt, _, [EvMavlink _]. split; [reflexivity|]. split; [|reflexivity].
    exists (vehicle w), (now w). split; [reflexivity|tauto].
  - exists tt, w, []. split; [reflexivity|].
    split; [apply evolves_refl|reflexivity].
Qed.

Lemma answers_try (m : M V unit) (h : Exn -> M V unit) (w : W)
    (P : JSON -> Prop) :
  answers_once m w P -> answers_once (try_except m h) w P.
Proof.
  intros (w' & r & E & H). exists w', r. unfold try_except. rewrite E. auto.
Qed.

Lemma vehicle_present_run (w : W) :
  vehicle_present w =
  (Ret (match vehicle w with Some _ => true | None => false end), w).
Proof. reflexivity. Qed.

Lemma gets_run {A} (f : W -> A) (w : W) : gets f w = (Ret (f w), w).
Proof. reflexivity. Qed.

Lemma read_armed (w : W) (v : V) :
  vehicle w = Some v ->
  vehicle_attr (fun v => Some (armed v)) w = (Ret (armed v), w).
Proof. intros Hv. run. rewrite Hv. reflexivity. Qed.

Lemma read_mode (w : W) (v : V) (name : string) :
  vehicle w = Some v -> mode_name v = Some name ->
  vehicle_attr mode_name w = (Ret name, w).
Proof. intros Hv Hm. run. rewrite Hv, Hm. reflexivity. Qed.

(** The brake branch acknowledges on each of its paths. *)
Lemma on_brake_answers (fuel : nat) (w : W) :
  (13 <= fuel)%nat ->
  answers_once (on_brake fuel) w (is_ack_for (JStr "brake")).
Proof.
  intros Hf. unfold on_brake.
  apply (answers_pure _ _ _ _ _ (vehicle_present_run w)).
  destruct (vehicle w) as [v|] eqn:Hv; cbn [negb];
    [|apply answers_write, ack_intro].
  apply (answers_pure _ _ _ _ _ (read_armed w v Hv)).
  destruct (armed v); cbn [negb]; [|apply answers_write, ack_intro].
  destruct (mode_name v) as [name|] eqn:Hm.
  - apply answers_try.
    apply (answers_pure _ _ _ _ _ (read_mode w v name Hv Hm)).
    destruct (velocity_mode name);
      [|destruct (String.eqb name "LOITER")].
    + apply answers_after; [apply send_ned_velocity_settles|].
      intros _ w1. unfold answers_once, write_message. run.
      eexists _, _. split; [reflexivity|].
      split; [cbn; rewrite replies_app; reflexivity|apply ack_intro].
    + apply answers_write, ack_intro.
    + apply answers_after; [apply ensure_mode_settles, Hf|].
      intros ok w1. apply answers_write, ack_intro.
  - unfold answers_once, write_message.
    run with (rewrite ?Hv, ?Hm).
    eexists _, _. split; [reflexivity|].
    split; [cbn; rewrite replies_app; reflexivity|apply ack_intro].
Qed.

(** The diag branch answers with a [diag_reply]. *)
Lemma on_diag_answers (w : W) : answers_once on_diag w is_diag_reply.
Proof.
  unfold on_diag. destruct (get_basic_status_pure w) as [st Est].
  apply (answers_pure _ _ _ _ _ Est).
  apply (answers_pure _ _ _ _ _ (gets_run recent_statustext w)).
  apply answers_write. unfold is_diag_reply. cbn. eauto.
Qed.

Lemma py_float_run (j : JSON) (w : W) :
  floatable j = true -> exists q, py_float j w = (Ret q, w).
Proof. intros H. destruct (py_float_ok j H) as [q E]. eauto. Qed.

(** C8, as the code has it.  Malformed JSON gets exactly one
    [{"type":"error",...}] reply.  A frame that parses to an object whose
    fields convert gets exactly one reply: for [diag] it is
    [{"type":"diag_reply","diag":{...}}]; for every other type, unknown
    ones included, it is [{"type":"ack","cmd":<the request type>,
    "ok":<bool>,...}]. *)
Theorem on_message_answers_once (fuel : nat) (f : Frame) (w : W) :
  (35 <= fuel)%nat ->
  well_formed f = true ->
  answers_once (on_message fuel f) w (expected_reply f).
Proof.
  intros Hf Hwf.
  destruct f as [detail|data].
  { apply answers_write. reflexivity. }
  destruct data as [| | | | |fields]; try discriminate.
  unfold on_message, expected_reply, request_type.
  unfold well_formed in Hwf.
  apply (answers_pure _ _ _ (dict_get fields "type" JNull) _ eq_refl).
  set (typ := dict_get fields "type" JNull) in *.
  destruct (is_type typ "joystick") eqn:Hj.
  { rewrite (is_type_eq _ _ Hj). cbn [is_type String.eqb Ascii.eqb Bool.eqb].
    repeat (apply andb_prop in Hwf; destruct Hwf as [Hwf ?]).
    apply on_joystick_answers; assumption. }
  destruct (is_type typ "mode") eqn:Hm.
  { rewrite (is_type_eq _ _ Hm). cbn [is_type String.eqb Ascii.eqb Bool.eqb].
    apply on_mode_answers; [lia|exact Hwf]. }
  destruct (is_type typ "arm") eqn:Ha.
  { rewrite (is_type_eq _ _ Ha). cbn [is_type String.eqb Ascii.eqb Bool.eqb].
    apply answers_after; [apply arm_vehicle_settles, Hf|].
    intros ok w1. apply answers_write, ack_intro. }
  destruct (is_type typ "disarm") eqn:Hd.
  { rewrite (is_type_eq _ _ Hd). cbn [is_type String.eqb Ascii.eqb Bool.eqb].
    apply answers_after; [apply disarm_vehicle_settles; lia|].
    intros ok w1. apply answers_write, ack_intro. }
  destruct (is_type typ "takeoff") eqn:Ht.
  { rewrite (is_type_eq _ _ Ht). cbn [is_type String.eqb Ascii.eqb Bool.eqb].
    apply (answers_pure _ _ _ _ _ eq_refl).
    destruct (py_float_run _ w Hwf) as [alt Ealt].
    apply (answers_pure _ _ _ _ _ Ealt).
    unfold answers_once, write_message. run.
    eexists _, _. split; [reflexivity|].
    split; [cbn; rewrite !replies_app; cbn; rewrite app_nil_r; reflexivity|].
    unfold is_ack_for. cbn. eauto. }
  destruct (is_type typ "land") eqn:Hl.
  { rewrite (is_type_eq _ _ Hl). cbn [is_type String.eqb Ascii.eqb Bool.eqb].
    apply answers_after; [apply ensure_mode_settles; lia|].
    intros ok w1. unfold answers_once, write_message.
    destruct ok; run; eexists _, _; (split; [reflexivity|]);
      (split; [cbn; rewrite replies_app; reflexivity|apply ack_intro]). }
  destruct (is_type typ "brake") eqn:Hb.
  { rewrite (is_type_eq _ _ Hb). cbn [is_type String.eqb Ascii.eqb Bool.eqb].
    apply on_brake_answers. lia. }
  destruct (is_type typ "diag") eqn:Hg.
  { apply on_diag_answers. }
  apply answers_write. unfold is_ack_for. cbn. eauto.
Qed.

(** ** Takeoff monitor *)

Lemma evolves_globals (e : list Event) (w w' : W) :
  evolves e w w' ->
  takeoff_in_progress w' = takeoff_in_progress w /\
  takeoff_target_alt w' = takeoff_target_alt w /\
  landing_in_progress w' = landing_in_progress w /\
  trace w' = trace w ++ e.
Proof. intros (ov & t & -> & _). cbn. auto. Qed.

(** C6, as the code has it.  The takeoff monitor returns on both of its
    exits (target altitude reached, or 30 s over) and then
    [takeoff_in_progress] is False; it never assigns [takeoff_target_alt],
    which keeps the value [do_takeoff] recorded. *)
Theorem watcher_ends_takeoff (fuel : nat) (target_alt : Q) (w : W) :
  (61 <= fuel)%nat ->
  exists w',
    watcher fuel target_alt w = (Ret tt, w') /\
    takeoff_in_progress w' = false /\
    takeoff_target_alt w' = takeoff_target_alt w.
Proof.
  intros Hf. destruct (fuel_pred 60 fuel Hf) as (f & -> & Hf').
  destruct (watch_altitude_spec target_alt (now w) f w) as (w1 & E & Ev).
  { assert (H60 : 30 <= budget 60 (5 # 10)) by (vm_compute; discriminate).
    pose proof (budget_mono 60 f (5 # 10) Hf' ltac:(lra)) as Hm. lra. }
  destruct (evolves_globals _ _ _ Ev) as (_ & Htta & _).
  destruct (safe_alt_pure (with_takeoff_in_progress false w1)) as [a Ea].
  exists (with_takeoff_in_progress false w1).
  split; [|split; [reflexivity|exact Htta]].
  unfold watcher. unfold bind at 1. unfold time_time, gets.
  unfold bind at 1. rewrite E.
  unfold bind at 1. unfold modify.
  unfold bind at 1. rewrite Ea. reflexivity.
Qed.

(** ** Unreadable altitude *)

Lemma safe_alt_reported (w : W) (v : V) :
  vehicle w = Some v -> safe_alt w = (Ret (reported_alt v), w).
Proof.
  intros Hv. unfold safe_alt, reported_alt. run. rewrite Hv.
  destruct (alt_reading v); reflexivity.
Qed.

(** Past its altitude guard, [disarm_vehicle] requests the disarm and
    reports what the vehicle then says. *)
Lemma disarm_vehicle_proceeds (fuel : nat) (w : W) (v : V) :
  (28 <= fuel)%nat ->
  vehicle w = Some v ->
  armed v = true ->
  reported_alt v <= 2 # 10 ->
  exists b w',
    disarm_vehicle fuel w = (Ret b, w') /\
    evolves [EvSetArmed false] w w'.
Proof.
  intros Hf Hv Ha Hh. apply Qltb_ge in Hh.
  destruct (fuel_pred 27 fuel Hf) as (f & -> & Hf').
  unfold disarm_vehicle.
  unfold bind at 1. rewrite vehicle_present_run, Hv. cbn [negb].
  unfold bind at 1. rewrite (read_armed w v Hv), Ha. cbn [negb].
  unfold bind at 1. rewrite (safe_alt_reported w v Hv), Hh.
  run with (rewrite ?Hv).
  match goal with
  | |- context [wait_disarmed (S f) ?t0 ?w1] =>
      pose proof (evolves_request (EvSetArmed false) (Some (set_armed false v)) w) as Hq;
      destruct (wait_disarmed_spec t0 f w1 (set_armed false v)) as (w2 & E & Ev);
        [reflexivity
        |cbn; assert (H27 : 8 <= budget 27 (3 # 10)) by (vm_compute; discriminate);
         pose proof (budget_mono 27 f (3 # 10) Hf' ltac:(lra)) as Hm; lra
        |]
  end.
  rewrite E. cbn.
  assert (Hw : evolves [EvSetArmed false] w w2).
  { refine (evolves_trans [EvSetArmed false] [] w _ w2 _ Ev).
    apply Hq. rewrite Hv. split; discriminate. }
  destruct (evolves_present _ _ _ v Hw Hv) as [v2 Hv2].
  run with (rewrite ?Hv2).
  destruct (armed v2); cbn; eexists _, w2; (split; [reflexivity|exact Hw]).
Qed.

Lemma unreadable_reported (w : W) (v : V) :
  altitude_unreadable w = true -> vehicle w = Some v -> reported_alt v = 0.
Proof.
  unfold altitude_unreadable, reported_alt. intros Hu Hv. rewrite Hv in Hu.
  destruct (alt_reading v); [reflexivity..|discriminate].
Qed.

(** C10.  When the altitude cannot be read (no vehicle, no location, no
    frame, [alt] None, or a read that raises), [safe_alt] returns 0.0.  So
    for an armed vehicle the in-flight guard of [disarm_vehicle] does not
    fire: the disarm request is issued, and it is the only request; and the
    already-airborne rejection of [do_takeoff] does not fire: the call goes
    on with the takeoff sequence. *)
Theorem unreadable_altitude_is_ground (fuel : nat) (target_alt : Q) (w : W) :
  (28 <= fuel)%nat ->
  altitude_unreadable w = true ->
  safe_alt w = (Ret 0, w) /\
  (forall v, vehicle w = Some v -> armed v = true ->
     exists b w',
       disarm_vehicle fuel w = (Ret b, w') /\
       trace w' = trace w ++ [EvSetArmed false]) /\
  (forall v, vehicle w = Some v ->
     do_takeoff fuel target_alt w = takeoff_sequence fuel target_alt w).
Proof.
  intros Hf Hu. split; [|split].
  - destruct (vehicle w) as [v|] eqn:Hv.
    + rewrite (safe_alt_reported w v Hv), (unreadable_reported w v Hu Hv).
      reflexivity.
    + unfold safe_alt. run. rewrite Hv. reflexivity.
  - intros v Hv Ha.
    destruct (disarm_vehicle_proceeds fuel w v Hf Hv Ha) as (b & w' & E & Ev).
    { rewrite (unreadable_reported w v Hu Hv). lra. }
    exists b, w'. split; [exact E|].
    apply (evolves_globals _ _ _ Ev).
  - intros v Hv. unfold do_takeoff.
    unfold bind at 1. rewrite vehicle_present_run, Hv. cbn [negb].
    unfold bind at 1.
    rewrite (safe_alt_reported w v Hv), (unreadable_reported w v Hu Hv).
    reflexivity.
Qed.

(** * Further properties of the server *)

(** ** Mode controller: bounded retries *)

(** Whatever its outcome, the poll of [ensure_mode] only lets time pass. *)
Lemma wait_for_mode_frame (target : string) (t0 wait_each : Q) (n : nat) :
  forall w : W, evolves [] w (snd (wait_for_mode n target t0 wait_each w)).
Proof.
  induction n as [|n IH]; intros w; [apply evolves_refl|].
  rewrite wait_for_mode_eq.
  pose proof (evolves_sleep (5 # 10) w) as Hs.
  destruct (Qltb (now w - t0) wait_each) eqn:Hc;
    [destruct (vehicle w) as [v|] eqn:Hv;
     [destruct (mode_name v) as [name|] eqn:Hm;
      [destruct (String.eqb name target) eqn:He|]|]|];
    run with (rewrite ?Hc, ?Hv, ?Hm, ?He);
    try apply evolves_refl;
    match goal with
    | |- context [wait_for_mode n _ _ _ ?w1] =>
        exact (evolves_trans [] [] w _ _ Hs (IH w1))
    end.
Qed.

(** The poll answers True only when it has just read the target mode. *)
Lemma wait_for_mode_true (target : string) (t0 wait_each : Q) (n : nat) :
  forall w w' : W,
    wait_for_mode n target t0 wait_each w = (Ret true, w') ->
    exists v', vehicle w' = Some v' /\ mode_name v' = Some target.
Proof.
  induction n as [|n IH]; intros w w'; [discriminate|].
  rewrite wait_for_mode_eq.
  destruct (Qltb (now w - t0) wait_each) eqn:Hc;
    [destruct (vehicle w) as [v|] eqn:Hv;
     [destruct (mode_name v) as [name|] eqn:Hm;
      [destruct (String.eqb name target) eqn:He|]|]|];
    run with (rewrite ?Hc, ?Hv, ?Hm, ?He);
    try discriminate; try apply IH.
  intros [= <-]. apply String.eqb_eq in He. subst name. eauto.
Qed.

(** The poll stops less than half a second after its deadline. *)
Lemma wait_for_mode_clock (target : string) (t0 wait_each : Q) (n : nat) :
  forall w : W,
    let w' := snd (wait_for_mode n target t0 wait_each w) in
    now w' = now w \/ (now w <= now w' /\ now w' - t0 < wait_each + (5 # 10)).
Proof.
  induction n as [|n IH]; intros w; [left; reflexivity|].
  rewrite wait_for_mode_eq.
  destruct (Qltb (now w - t0) wait_each) eqn:Hc;
    [pose proof (proj1 (Qltb_lt _ _) Hc) as Hlt;
     destruct (vehicle w) as [v|] eqn:Hv;
     [destruct (mode_name v) as [name|] eqn:Hm;
      [destruct (String.eqb name target) eqn:He|]|]|];
    run with (rewrite ?Hc, ?Hv, ?Hm, ?He);
    try (left; reflexivity);
    match goal with
    | |- context [wait_for_mode n _ _ _ ?w1] =>
        right; destruct (IH w1) as [E|[H1 H2]]; cbn in *;
        [rewrite E; cbn; lra|lra]
    end.
Qed.

Lemma evolves_app_repeat (e : Event) (j : nat) (w w1 w2 w3 : W) :
  evolves [e] w w1 -> evolves [] w1 w2 -> evolves (repeat e j) w2 w3 ->
  evolves (repeat e (S j)) w w3.
Proof.
  intros H1 H2 H3.
  exact (evolves_trans [e] (repeat e j) w w2 w3
           (evolves_trans [e] [] w w1 w2 H1 H2) H3).
Qed.

(** What a run of the attempts of [ensure_mode] amounts to, whatever its
    outcome: [j] mode requests for the target and nothing else, [j] being
    all [k] attempts when the answer is False; a True answer means the
    target mode was read; and each attempt lasts less than [wait_each] plus
    one polling period. *)
Lemma mode_attempts_run (fuel : nat) (target : string) (wait_each : Q) (k : nat) :
  forall (w w' : W) (o : Outcome bool),
    mode_attempts fuel k target wait_each w = (o, w') ->
    exists j,
      (j <= k)%nat /\
      evolves (repeat (EvSetMode target) j) w w' /\
      (o = Ret false -> j = k) /\
      (o = Ret true ->
       exists v', vehicle w' = Some v' /\ mode_name v' = Some target) /\
      (0 <= wait_each ->
       now w <= now w' /\ now w' - now w <= budget k (wait_each + (5 # 10))).
Proof.
  induction k as [|k IH]; intros w w' o E.
  - cbn in E. injection E as <- <-. exists 0%nat.
    split; [lia|]. split; [apply evolves_refl|].
    split; [reflexivity|]. split; [discriminate|].
    intros _. rewrite budget_0. lra.
  - rewrite mode_attempts_eq in E.
    destruct (set_mode_caught target w) as (w1 & E1 & Ev1 & Hn).
    unfold bind at 1 in E. rewrite E1 in E.
    unfold bind at 1 in E. unfold time_time, gets in E.
    unfold bind at 1 in E.
    pose proof (wait_for_mode_frame target (now w1) wait_each fuel w1) as Hf.
    pose proof (wait_for_mode_clock target (now w1) wait_each fuel w1) as Hc.
    pose proof (wait_for_mode_true target (now w1) wait_each fuel w1) as Ht.
    destruct (wait_for_mode fuel target (now w1) wait_each w1)
      as [[[|]|e|] w2] eqn:E2; cbn in Hf, Hc.
    + injection E as <- <-. exists 1%nat.
      split; [lia|].
      split; [exact (evolves_trans _ _ _ _ _ Ev1 Hf)|].
      split; [discriminate|]. split; [intros _; exact (Ht w2 eq_refl)|].
      intros Hw. rewrite budget_S.
      assert (0 <= budget k (wait_each + (5 # 10)))
        by (unfold budget; apply Qmult_le_0_compat;
            [change 0 with (inject_Z 0); rewrite <- Zle_Qle; lia|lra]).
      destruct Hc as [Hc|Hc]; [rewrite Hc|]; rewrite ?Hn in *; lra.
    + unfold bind at 1 in E. rewrite print_blockers_pure in E.
      destruct (IH w2 w' o E) as (j & Hj & Ev & Hfalse & Htrue & Hclock).
      exists (S j). split; [lia|].
      split; [exact (evolves_app_repeat _ _ _ _ _ _ Ev1 Hf Ev)|].
      split; [intros Ho; rewrite (Hfalse Ho); reflexivity|].
      split; [exact Htrue|].
      intros Hw. destruct (Hclock Hw) as [H1 H2]. rewrite budget_S.
      destruct Hc as [Hc|Hc]; [rewrite Hc in *|]; rewrite ?Hn in *; lra.
    + injection E as <- <-. exists 1%nat.
      split; [lia|].
      split; [exact (evolves_trans _ _ _ _ _ Ev1 Hf)|].
      split; [discriminate|]. split; [discriminate|].
      intros Hw. rewrite budget_S.
      assert (0 <= budget k (wait_each + (5 # 10)))
        by (unfold budget; apply Qmult_le_0_compat;
            [change 0 with (inject_Z 0); rewrite <- Zle_Qle; lia|lra]).
      destruct Hc as [Hc|Hc]; [rewrite Hc|]; rewrite ?Hn in *; lra.
    + injection E as <- <-. exists 1%nat.
      split; [lia|].
      split; [exact (evolves_trans _ _ _ _ _ Ev1 Hf)|].
      split; [discriminate|]. split; [discriminate|].
      intros Hw. rewrite budget_S.
      assert (0 <= budget k (wait_each + (5 # 10)))
        by (unfold budget; apply Qmult_le_0_compat;
            [change 0 with (inject_Z 0); rewrite <- Zle_Qle; lia|lra]).
      destruct Hc as [Hc|Hc]; [rewrite Hc|]; rewrite ?Hn in *; lra.
Qed.

(** [ensure_mode] by cases: no vehicle, already in the mode, or the
    attempts. *)
Lemma ensure_mode_cases (fuel : nat) (target : string) (attempts : PyVal)
    (wait_each : Q) (w : W) :
  ensure_mode fuel target attempts wait_each w =
  match vehicle w with
  | None => (Ret false, w)
  | Some v =>
      if reads_mode (upper target) v then (Ret true, w)
      else match py_range attempts with
           | inl e => (Raise e, w)
           | inr k => mode_attempts fuel k (upper target) wait_each w
           end
  end.
Proof.
  unfold ensure_mode, reads_mode.
  destruct (vehicle w) as [v|] eqn:Hv;
    [destruct (mode_name v) as [name|] eqn:Hm;
     [destruct (String.eqb name (upper target)) eqn:He|]|];
    run with (rewrite ?Hv, ?Hm, ?He);
    destruct (py_range attempts); reflexivity.
Qed.

(** A True answer of [ensure_mode] comes with the target mode read. *)
Lemma ensure_mode_true_run (fuel : nat) (target : string)
    (attempts : PyVal) (wait_each : Q) (w w' : W) :
  ensure_mode fuel target attempts wait_each w = (Ret true, w') ->
  exists v', vehicle w' = Some v' /\ mode_name v' = Some (upper target).
Proof.
  rewrite ensure_mode_cases. intros E.
  destruct (vehicle w) as [v|] eqn:Hv; [|discriminate].
  unfold reads_mode in E.
  destruct (mode_name v) as [name|] eqn:Hm;
    [destruct (String.eqb_spec name (upper target)) as [->|]|].
  - injection E as <-. eauto.
  - destruct (py_range attempts) as [e|k]; [discriminate|].
    destruct (mode_attempts_run _ _ _ _ _ _ _ E) as (j & _ & _ & _ & Ht & _).
    exact (Ht eq_refl).
  - destruct (py_range attempts) as [e|k]; [discriminate|].
    destruct (mode_attempts_run _ _ _ _ _ _ _ E) as (j & _ & _ & _ & Ht & _).
    exact (Ht eq_refl).
Qed.

(** X1.  When [ensure_mode] returns True, the vehicle reports the
    (upper-cased) target mode at that moment, whatever the number of
    attempts and the wait were. *)
Theorem ensure_mode_true_in_mode (fuel : nat) (target : string)
    (attempts : PyVal) (wait_each : Q) (w w' : W) :
  ensure_mode fuel target attempts wait_each w = (Ret true, w') ->
  exists v', vehicle w' = Some v' /\ reads_mode (upper target) v' = true.
Proof.
  intros E.
  destruct (ensure_mode_true_run _ _ _ _ _ _ E) as (v' & Hv' & Hm').
  exists v'. split; [exact Hv'|].
  unfold reads_mode. rewrite Hm'. apply String.eqb_refl.
Qed.

(** X2.  A vehicle that is not yet in the target mode gets at most
    [attempts] mode requests from [ensure_mode], all for the upper-cased
    target and nothing else; the call returns, and when it returns False
    every one of the [attempts] requests was made. *)
Theorem ensure_mode_attempt_count (fuel : nat) (target : string) (k : Z)
    (w : W) (v : V) :
  (13 <= fuel)%nat ->
  vehicle w = Some v ->
  reads_mode (upper target) v = false ->
  exists b w' j,
    ensure_mode fuel target (PyInt k) default_wait_each w = (Ret b, w') /\
    (j <= Z.to_nat k)%nat /\
    trace w' = trace w ++ repeat (EvSetMode (upper target)) j /\
    (b = false -> j = Z.to_nat k).
Proof.
  intros Hf Hv Hr.
  destruct (ensure_mode_settles fuel target k w Hf) as (b & w' & _ & E & _).
  exists b, w'. pose proof E as E'.
  rewrite ensure_mode_cases, Hv, Hr in E'. cbn [py_range] in E'.
  destruct (mode_attempts_run _ _ _ _ _ _ _ E') as (j & Hj & Ev & Hfalse & _).
  exists j. split; [exact E|]. split; [exact Hj|].
  split; [apply (evolves_globals _ _ _ Ev)|].
  intros ->. apply Hfalse. reflexivity.
Qed.

(** X3.  [ensure_mode] blocks for a bounded time: each of its attempts
    lasts less than [wait_each] plus one polling period of 0.5 s, so the
    clock moves on by at most [attempts * (wait_each + 0.5)] seconds,
    whatever the vehicle does. *)
Theorem ensure_mode_blocking_bound (fuel : nat) (target : string) (k : Z)
    (wait_each : Q) (w w' : W) (o : Outcome bool) :
  0 <= wait_each ->
  ensure_mode fuel target (PyInt k) wait_each w = (o, w') ->
  now w <= now w' /\
  now w' - now w <= budget (Z.to_nat k) (wait_each + (5 # 10)).
Proof.
  intros Hw. rewrite ensure_mode_cases.
  assert (H0 : 0 <= budget (Z.to_nat k) (wait_each + (5 # 10))).
  { unfold budget. apply Qmult_le_0_compat; [|lra].
    change 0 with (inject_Z 0). rewrite <- Zle_Qle. lia. }
  destruct (vehicle w) as [v|] eqn:Hv;
    [destruct (reads_mode (upper target) v)|];
    try (intros [= <- <-]; lra).
  cbn [py_range]. intros E.
  destruct (mode_attempts_run _ _ _ _ _ _ _ E) as (j & _ & _ & _ & _ & Hc).
  exact (Hc Hw).
Qed.

(** ** Arm controller: verdicts and time bounds *)

Lemma wait_armed_frame (t0 : Q) (n : nat) :
  forall w : W, evolves [] w (snd (wait_armed n t0 w)).
Proof.
  induction n as [|n IH]; intros w; [apply evolves_refl|].
  rewrite wait_armed_eq.
  pose proof (evolves_sleep (3 # 10) w) as Hs.
  destruct (vehicle w) as [v|] eqn:Hv;
    [destruct (negb (armed v) && Qltb (now w - t0) 10) eqn:Hc|];
    run with (rewrite ?Hv, ?Hc);
    try apply evolves_refl.
  match goal with
  | |- context [wait_armed n _ ?w1] =>
      exact (evolves_trans [] [] w _ _ Hs (IH w1))
  end.
Qed.

Lemma wait_disarmed_frame (t0 : Q) (n : nat) :
  forall w : W, evolves [] w (snd (wait_disarmed n t0 w)).
Proof.
  induction n as [|n IH]; intros w; [apply evolves_refl|].
  rewrite wait_disarmed_eq.
  pose proof (evolves_sleep (3 # 10) w) as Hs.
  destruct (vehicle w) as [v|] eqn:Hv;
    [destruct (armed v && Qltb (now w - t0) 8) eqn:Hc|];
    run with (rewrite ?Hv, ?Hc);
    try apply evolves_refl.
  match goal with
  | |- context [wait_disarmed n _ ?w1] =>
      exact (evolves_trans [] [] w _ _ Hs (IH w1))
  end.
Qed.

Lemma wait_armed_clock (t0 : Q) (n : nat) :
  forall w : W,
    let w' := snd (wait_armed n t0 w) in
    now w' = now w \/ (now w <= now w' /\ now w' - t0 < 10 + (3 # 10)).
Proof.
  induction n as [|n IH]; intros w; [left; reflexivity|].
  rewrite wait_armed_eq.
  destruct (vehicle w) as [v|] eqn:Hv;
    [destruct (negb (armed v) && Qltb (now w - t0) 10) eqn:Hc|];
    run with (rewrite ?Hv, ?Hc);
    try (left; reflexivity).
  apply andb_prop in Hc. destruct Hc as [_ Hc]. apply Qltb_lt in Hc.
  match goal with
  | |- context [wait_armed n _ ?w1] =>
      right; destruct (IH w1) as [E|[H1 H2]]; cbn in *;
      [rewrite E; cbn; lra|lra]
  end.
Qed.

Lemma wait_disarmed_clock (t0 : Q) (n : nat) :
  forall w : W,
    let w' := snd (wait_disarmed n t0 w) in
    now w' = now w \/ (now w <= now w' /\ now w' - t0 < 8 + (3 # 10)).
Proof.
  induction n as [|n IH]; intros w; [left; reflexivity|].
  rewrite wait_disarmed_eq.
  destruct (vehicle w) as [v|] eqn:Hv;
    [destruct (armed v && Qltb (now w - t0) 8) eqn:Hc|];
    run with (rewrite ?Hv, ?Hc);
    try (left; reflexivity).
  apply andb_prop in Hc. destruct Hc as [_ Hc]. apply Qltb_lt in Hc.
  match goal with
  | |- context [wait_disarmed n _ ?w1] =>
      right; destruct (IH w1) as [E|[H1 H2]]; cbn in *;
      [rewrite E; cbn; lra|lra]
  end.
Qed.

(** A run of [arm_vehicle] on a connected vehicle. *)
Lemma arm_vehicle_run (fuel : nat) (w : W) (v : V) :
  (35 <= fuel)%nat ->
  vehicle w = Some v ->
  exists b w' v',
    arm_vehicle fuel w = (Ret b, w') /\
    vehicle w' = Some v' /\ armed v' = b /\
    (if armed v then w' = w
     else evolves [EvSetArmed true] w w').
Proof.
  intros Hf Hv. destruct (fuel_pred 34 fuel Hf) as (f & -> & Hf').
  unfold arm_vehicle.
  destruct (armed v) eqn:Ha; run with (rewrite ?Hv, ?Ha).
  { exists true, w, v. auto. }
  match goal with
  | |- context [wait_armed (S f) ?t0 ?w1] =>
      pose proof (evolves_request (EvSetArmed true) (Some (set_armed true v)) w) as Hr;
      destruct (wait_armed_spec t0 f w1 (set_armed true v)) as (w2 & E & Ev);
        [reflexivity
        |cbn; assert (H34 : 10 <= budget 34 (3 # 10)) by (vm_compute; discriminate);
         pose proof (budget_mono 34 f (3 # 10) Hf' ltac:(lra)) as Hm; lra
        |]
  end.
  rewrite E. cbn.
  assert (Hw : evolves [EvSetArmed true] w w2).
  { refine (evolves_trans [EvSetArmed true] [] w _ w2 _ Ev).
    apply Hr. rewrite Hv. split; discriminate. }
  destruct (evolves_present _ _ _ v Hw Hv) as [v2 Hv2].
  run with (rewrite ?Hv2, ?print_blockers_pure).
  destruct (armed v2) eqn:Ha2; cbn; rewrite ?print_blockers_pure;
    eexists _, w2, v2;
    (split; [reflexivity|]); (split; [exact Hv2|]);
    (split; [exact Ha2|exact Hw]).
Qed.

(** X4.  [arm_vehicle] tells the truth: it returns, its answer is the
    armed state the vehicle reports at that moment, an armed vehicle is
    left untouched (no request, no wait), and a disarmed one gets exactly
    one arm request. *)
Theorem arm_vehicle_verdict (fuel : nat) (w : W) (v : V) :
  (35 <= fuel)%nat ->
  vehicle w = Some v ->
  exists b w' v',
    arm_vehicle fuel w = (Ret b, w') /\
    vehicle w' = Some v' /\ armed v' = b /\
    (if armed v then w' = w
     else trace w' = trace w ++ [EvSetArmed true]).
Proof.
  intros Hf Hv.
  destruct (arm_vehicle_run fuel w v Hf Hv) as (b & w' & v' & E & Hv' & Hb & H).
  exists b, w', v'. repeat (split; [assumption|]).
  destruct (armed v); [exact H|apply (evolves_globals _ _ _ H)].
Qed.

(** X5.  [disarm_vehicle] tells the truth: it returns True exactly when
    the vehicle reports itself disarmed at that moment, and it issues at
    most one request, a disarm. *)
Theorem disarm_vehicle_verdict (fuel : nat) (w : W) (v : V) :
  (28 <= fuel)%nat ->
  vehicle w = Some v ->
  exists b w' v',
    disarm_vehicle fuel w = (Ret b, w') /\
    vehicle w' = Some v' /\ b = negb (armed v') /\
    (trace w' = trace w \/ trace w' = trace w ++ [EvSetArmed false]).
Proof.
  intros Hf Hv. destruct (fuel_pred 27 fuel Hf) as (f & -> & Hf').
  unfold disarm_vehicle, safe_alt.
  destruct (armed v) eqn:Ha;
    [destruct (alt_reading v) eqn:Hr;
     [| | | |destruct (Qltb (2 # 10) a) eqn:Hh]|];
    run with (rewrite ?Hv, ?Ha, ?Hr, ?Hh);
    try (eexists _, w, v; split; [reflexivity|];
         rewrite Ha; auto).
  all: match goal with
  | |- context [wait_disarmed (S ?n) ?t0 ?w1] =>
      pose proof (evolves_request (EvSetArmed false) (Some (set_armed false v)) w) as Hq;
      destruct (wait_disarmed_spec t0 n w1 (set_armed false v)) as (w2 & E & Ev);
        [reflexivity
        |cbn; assert (H27 : 8 <= budget 27 (3 # 10)) by (vm_compute; discriminate);
         pose proof (budget_mono 27 f (3 # 10) Hf' ltac:(lra)) as Hm; lra
        |]
  end.
  all: rewrite E; cbn;
    assert (Hw : evolves [EvSetArmed false] w w2)
      by (refine (evolves_trans [EvSetArmed false] [] w _ w2 _ Ev);
          apply Hq; rewrite Hv; split; discriminate);
    destruct (evolves_present _ _ _ v Hw Hv) as [v2 Hv2];
    run with (rewrite ?Hv2);
    destruct (armed v2) eqn:Ha2; cbn;
      eexists _, w2, v2;
      (split; [reflexivity|]); (split; [exact Hv2|]);
      rewrite Ha2; (split; [reflexivity|]);
      right; apply (evolves_globals _ _ _ Hw).
Qed.

(** X6.  Arming and disarming block for a bounded time: whatever the
    vehicle does and however the call ends, [arm_vehicle] moves the clock
    on by less than 10.3 s and [disarm_vehicle] by less than 8.3 s. *)
Theorem arm_disarm_blocking_bound (fuel : nat) (w : W) :
  (now w <= now (snd (arm_vehicle fuel w)) /\
   now (snd (arm_vehicle fuel w)) - now w < 10 + (3 # 10)) /\
  (now w <= now (snd (disarm_vehicle fuel w)) /\
   now (snd (disarm_vehicle fuel w)) - now w < 8 + (3 # 10)).
Proof.
  split.
  - unfold arm_vehicle.
    destruct (vehicle w) as [v|] eqn:Hv;
      [destruct (armed v) eqn:Ha|];
      run with (rewrite ?Hv, ?Ha); try lra.
    match goal with
    | |- context [wait_armed fuel ?t0 ?w1] =>
        pose proof (wait_armed_clock t0 fuel w1) as Hc;
        pose proof (wait_armed_frame t0 fuel w1) as Hf;
        destruct (wait_armed fuel t0 w1) as [[[]|e|] w2]
    end; cbn in Hc, Hf |- *; try (destruct Hc as [Hc|Hc]; [rewrite Hc|]; lra).
    destruct (evolves_present _ _ _ (set_armed true v) Hf eq_refl) as [v2 Hv2].
    run with (rewrite ?Hv2).
    destruct (armed v2); cbn; rewrite ?print_blockers_pure; cbn;
      (destruct Hc as [Hc|Hc]; [rewrite Hc|]; lra).
  - unfold disarm_vehicle, safe_alt.
    destruct (vehicle w) as [v|] eqn:Hv;
      [destruct (armed v) eqn:Ha;
       [destruct (alt_reading v) eqn:Hr;
        [| | | |destruct (Qltb (2 # 10) a) eqn:Hh]|]|];
      run with (rewrite ?Hv, ?Ha, ?Hr, ?Hh); try lra.
    all: match goal with
    | |- context [wait_disarmed ?n ?t0 ?w1] =>
        pose proof (wait_disarmed_clock t0 n w1) as Hc;
        pose proof (wait_disarmed_frame t0 n w1) as Hf;
        destruct (wait_disarmed n t0 w1) as [[[]|e|] w2]
    end; cbn in Hc, Hf |- *; try (destruct Hc as [Hc|Hc]; [rewrite Hc|]; lra).
    all: destruct (evolves_present _ _ _ (set_armed false v) Hf eq_refl) as [v2 Hv2];
      run with (rewrite ?Hv2);
      destruct (armed v2); cbn;
      (destruct Hc as [Hc|Hc]; [rewrite Hc|]; lra).
Qed.

(** ** Velocity commands and the takeoff sequencer *)

(** X7.  [send_ned_velocity] never raises, even when encoding or sending
    fails: with a vehicle it issues exactly one message carrying the given
    vx, vy, vz, without one it does nothing; the server's globals are as
    before, and the [yaw_rate] argument has no effect on the outcome. *)
Theorem send_ned_velocity_swallows (x y z r r' : Q) (w : W) :
  send_ned_velocity x y z r w = send_ned_velocity x y z r' w /\
  exists w',
    send_ned_velocity x y z r w = (Ret tt, w') /\
    evolves (match vehicle w with
             | Some _ => [EvMavlink (ned_velocity_msg x y z)]
             | None => []
             end) w w'.
Proof.
  split; [reflexivity|].
  unfold send_ned_velocity.
  destruct (vehicle w) as [v|] eqn:Hv;
    [destruct (send_mavlink (ned_velocity_msg x y z) v) as [v'|] eqn:Hs|];
    run with (rewrite ?Hv, ?Hs); eexists; (split; [reflexivity|]).
  - apply (evolves_request _ (Some v') w). rewrite Hv. split; discriminate.
  - exists (vehicle w), (now w). split; [reflexivity|tauto].
  - apply evolves_refl.
Qed.

(** X8.  With no vehicle connected the controllers degrade quietly:
    [ensure_mode], [arm_vehicle] and [disarm_vehicle] return False,
    [send_ned_velocity] and [do_takeoff] return, and none of them raises
    or changes anything. *)
Theorem controllers_without_vehicle (fuel : nat) (target : string)
    (attempts : PyVal) (wait_each x y z r alt : Q) (w : W) :
  vehicle w = None ->
  ensure_mode fuel target attempts wait_each w = (Ret false, w) /\
  arm_vehicle fuel w = (Ret false, w) /\
  disarm_vehicle fuel w = (Ret false, w) /\
  send_ned_velocity x y z r w = (Ret tt, w) /\
  do_takeoff fuel alt w = (Ret tt, w).
Proof.
  intros Hv.
  unfold ensure_mode, arm_vehicle, disarm_vehicle, send_ned_velocity,
    do_takeoff.
  run with (rewrite ?Hv). repeat split.
Qed.

(** X9.  [do_takeoff] above 0.5 m treats the vehicle as already flying and
    returns at once: no mode request, no arming, no takeoff command, and
    the takeoff flag and target are untouched. *)
Theorem do_takeoff_rejected_airborne (fuel : nat) (target_alt a : Q)
    (w : W) (v : V) :
  vehicle w = Some v ->
  alt_reading v = AltValue a ->
  5 # 10 < a ->
  do_takeoff fuel target_alt w = (Ret tt, w).
Proof.
  intros Hv Ha Hlt. apply Qltb_lt in Hlt.
  unfold do_takeoff, safe_alt.
  run with (rewrite ?Hv, ?Ha, ?Hlt). reflexivity.
Qed.


(** ** Takeoff monitor: read-only and bounded *)

Lemma watch_altitude_frame (target_alt t0 : Q) (n : nat) :
  forall w : W, evolves [] w (snd (watch_altitude n target_alt t0 w)).
Proof.
  induction n as [|n IH]; intros w; [apply evolves_refl|].
  rewrite watch_altitude_eq.
  destruct (safe_alt_pure w) as [a Ha].
  unfold bind at 1. unfold time_time, gets.
  destruct (Qltb (now w - t0) 30); [|apply evolves_refl].
  unfold bind at 1. rewrite Ha.
  destruct (Qleb (target_alt * (98 # 100)) a); [apply evolves_sleep|].
  pose proof (evolves_sleep (5 # 10) w) as Hs. run.
  match goal with
  | |- context [watch_altitude n _ _ ?w1] =>
      exact (evolves_trans [] [] w _ _ Hs (IH w1))
  end.
Qed.

Lemma watch_altitude_clock (target_alt t0 : Q) (n : nat) :
  forall (w w' : W) (o : Outcome unit),
    watch_altitude n target_alt t0 w = (o, w') ->
    now w' = now w \/ (now w <= now w' /\ now w' - t0 < 32).
Proof.
  induction n as [|n IH]; intros w w' o E.
  { injection E as <- <-. left; reflexivity. }
  rewrite watch_altitude_eq in E.
  destruct (safe_alt_pure w) as [a Ha].
  unfold bind at 1 in E. unfold time_time, gets in E.
  destruct (Qltb (now w - t0) 30) eqn:Hc;
    [|injection E as <- <-; left; reflexivity].
  apply Qltb_lt in Hc.
  unfold bind at 1 in E. rewrite Ha in E.
  destruct (Qleb (target_alt * (98 # 100)) a).
  - injection E as <- <-. right. cbn. lra.
  - unfold bind at 1 in E. cbn in E.
    right. destruct (IH _ _ _ E) as [H|[H1 H2]]; cbn in *;
      [rewrite H; lra|lra].
Qed.

Lemma evolves_server_state (e : list Event) (w w' : W) :
  evolves e w w' ->
  last_velocity_cmd w' = last_velocity_cmd w /\
  last_joystick_time w' = last_joystick_time w /\
  recent_statustext w' = recent_statustext w.
Proof. intros (ov & t & -> & _). cbn. auto. Qed.

(** X11.  The takeoff monitor only watches: however it ends, it has
    issued no request to the vehicle and started no thread, has left the
    stored joystick command and the landing flag alone, and has moved the
    clock on by less than 32 s (30 s of polling plus the 2 s settle). *)
Theorem watcher_only_watches (fuel : nat) (target_alt : Q) (w : W) :
  let w' := snd (watcher fuel target_alt w) in
  trace w' = trace w /\
  last_velocity_cmd w' = last_velocity_cmd w /\
  last_joystick_time w' = last_joystick_time w /\
  landing_in_progress w' = landing_in_progress w /\
  now w <= now w' /\ now w' - now w < 32.
Proof.
  destruct (watcher fuel target_alt w) as [o w'] eqn:E. cbn.
  unfold watcher in E.
  unfold bind at 1 in E. unfold time_time, gets in E.
  pose proof (watch_altitude_frame target_alt (now w) fuel w) as Hf.
  pose proof (watch_altitude_clock target_alt (now w) fuel w) as Hc.
  unfold bind at 1 in E.
  destruct (watch_altitude fuel target_alt (now w) w) as [[[]|e|] w1];
    specialize (Hc _ _ eq_refl); cbn in Hf;
    destruct (evolves_globals _ _ _ Hf) as (_ & _ & Hl & Ht);
    destruct (evolves_server_state _ _ _ Hf) as (Hcmd & Hjt & _);
    rewrite app_nil_r in Ht.
  - unfold bind at 1 in E. unfold modify in E.
    destruct (safe_alt_pure (with_takeoff_in_progress false w1)) as [a Ha].
    unfold bind at 1 in E. rewrite Ha in E. injection E as <- <-. cbn.
    repeat (split; [assumption|]).
    destruct Hc as [Hc|Hc]; [rewrite Hc|]; lra.
  - injection E as <- <-. repeat (split; [assumption|]).
    destruct Hc as [Hc|Hc]; [rewrite Hc|]; lra.
  - injection E as <- <-. repeat (split; [assumption|]).
    destruct Hc as [Hc|Hc]; [rewrite Hc|]; lra.
Qed.

(** X12.  When the altitude already is at least 98 % of the target as the
    monitor starts, it waits the 2 s settle period, exactly, and ends the
    takeoff. *)
Theorem watcher_settles_two_seconds (fuel : nat) (target_alt a : Q)
    (w : W) (v : V) :
  (1 <= fuel)%nat ->
  vehicle w = Some v ->
  alt_reading v = AltValue a ->
  target_alt * (98 # 100) <= a ->
  exists w',
    watcher fuel target_alt w = (Ret tt, w') /\
    now w' = now w + 2 /\
    takeoff_in_progress w' = false.
Proof.
  intros Hf Hv Ha Hreach. apply Qleb_le in Hreach.
  destruct fuel as [|f]; [lia|].
  unfold watcher. unfold bind at 1. unfold time_time, gets.
  rewrite watch_altitude_eq. unfold safe_alt.
  assert (Hz : Qltb (now w - now w) 30 = true)
    by (apply Qltb_lt; lra).
  run with (rewrite ?Hz, ?Hv, ?Ha, ?Hreach).
  destruct (alt_reading (elapse 2 v));
    eexists; (split; [reflexivity|]); split; reflexivity.
Qed.

(** ** Control loop: never fatal, never more than one message *)

(** One iteration of the control loop, in every world. *)
Lemma control_tick_run (w : W) :
  exists w' extra,
    control_tick w = (Ret tt, w') /\
    evolves extra w w' /\
    (extra = [] \/ exists m, extra = [EvMavlink m]) /\
    now w + (1 # 20) <= now w' /\ now w' <= now w + (15 # 100).
Proof.
  unfold control_tick, send_ned_velocity, safe_alt.
  destruct (vehicle w) as [v|] eqn:Hv;
    [destruct (armed v) eqn:Ha;
     [destruct (takeoff_in_progress w || landing_in_progress w) eqn:Hp;
      [|apply orb_false_elim in Hp; destruct Hp as [Ht Hl];
        destruct (mode_name v) as [name|] eqn:Hm;
        [destruct (controllable_mode name) eqn:Hc;
         [destruct (Qltb VELOCITY_TIMEOUT (now w - last_joystick_time w)) eqn:Hq
         |destruct (String.eqb name "LAND") eqn:Hn;
          [destruct (alt_reading v) eqn:Hr;
           [| | | |destruct (Qleb a (2 # 10)) eqn:Hg]|]]|]]|]|];
    run with (rewrite ?Hv, ?Ha, ?Ht, ?Hl, ?Hp, ?Hm, ?Hc, ?Hq, ?Hn, ?Hr, ?Hg);
    try match goal with
        | |- context [send_mavlink ?m v] =>
            destruct (send_mavlink m v) eqn:Hs; cbn
        end;
    first
      [ eexists _, [];
        split; [reflexivity|];
        split; [eexists _, _; rewrite app_nil_r;
                split; [reflexivity|cbn; rewrite ?Hv; split; discriminate]|];
        split; [left; reflexivity|cbn; change (1 / CONTROL_HZ) with (1 # 20); lra]
      | eexists _, [];
        split; [reflexivity|];
        split; [eexists _, _; rewrite app_nil_r;
                split; [reflexivity|cbn; rewrite ?Hv; tauto]|];
        split; [left; reflexivity|cbn; change (1 / CONTROL_HZ) with (1 # 20); lra]
      | eexists _, [_];
        split; [reflexivity|];
        split; [eexists _, _;
                split; [reflexivity|cbn; rewrite ?Hv; split; discriminate]|];
        split; [right; eexists; reflexivity
               |cbn; change (1 / CONTROL_HZ) with (1 # 20); lra] ].
Qed.

(** X13.  An iteration of the control loop is never fatal: in every world
    it returns without raising, whatever the vehicle reports and whether or
    not sending fails.  It sends at most one velocity message and issues no
    other request (never a mode change, never an arm or disarm), and it
    leaves the stored command, its timestamp and the three phase variables
    exactly as they were. *)
Theorem control_tick_never_fatal (w : W) :
  exists w',
    control_tick w = (Ret tt, w') /\
    (trace w' = trace w \/ exists m, trace w' = trace w ++ [EvMavlink m]) /\
    last_velocity_cmd w' = last_velocity_cmd w /\
    last_joystick_time w' = last_joystick_time w /\
    takeoff_in_progress w' = takeoff_in_progress w /\
    takeoff_target_alt w' = takeoff_target_alt w /\
    landing_in_progress w' = landing_in_progress w.
Proof.
  destruct (control_tick_run w) as (w' & extra & E & Ev & Hx & _).
  exists w'. split; [exact E|].
  destruct (evolves_globals _ _ _ Ev) as (Ht & Hta & Hl & Htr).
  destruct (evolves_server_state _ _ _ Ev) as (Hc & Hj & _).
  split; [|auto].
  destruct Hx as [->|[m ->]]; [left; rewrite Htr; apply app_nil_r|].
  right. exists m. exact Htr.
Qed.

(** X14.  Outside its velocity-controllable modes the control loop sends
    nothing: with no vehicle, a disarmed vehicle, or an armed vehicle
    whose mode is not one of GUIDED, GUIDED_NOGPS, BRAKE, POSHOLD (LAND,
    LOITER, a mode that cannot be read, ...), an iteration traces no
    request at all. *)
Theorem control_tick_idle (w : W) :
  match vehicle w with
  | None => True
  | Some v =>
      armed v = false \/
      forall name, mode_name v = Some name -> controllable_mode name = false
  end ->
  trace (snd (control_tick w)) = trace w.
Proof.
  intros Hidle.
  unfold control_tick, send_ned_velocity, safe_alt.
  destruct (vehicle w) as [v|] eqn:Hv;
    [destruct (armed v) eqn:Ha;
     [destruct (takeoff_in_progress w || landing_in_progress w) eqn:Hp;
      [|apply orb_false_elim in Hp; destruct Hp as [Ht Hl];
        destruct Hidle as [Hidle|Hidle]; [discriminate|];
        destruct (mode_name v) as [name|] eqn:Hm;
        [pose proof (Hidle name eq_refl) as Hc;
         destruct (String.eqb name "LAND") eqn:Hn;
         [destruct (alt_reading v) eqn:Hr;
          [| | | |destruct (Qleb a (2 # 10)) eqn:Hg]|]|]]|]|];
    run with (rewrite ?Hv, ?Ha, ?Ht, ?Hl, ?Hp, ?Hm, ?Hc, ?Hn, ?Hr, ?Hg);
    reflexivity.
Qed.

(** X15.  Each iteration of the control loop sleeps: it takes at least
    0.05 s (the 20 Hz period) and at most 0.15 s, so the loop never spins. *)
Theorem control_tick_period (w : W) :
  now w + (1 # 20) <= now (snd (control_tick w)) /\
  now (snd (control_tick w)) <= now w + (15 # 100).
Proof.
  destruct (control_tick_run w) as (w' & extra & E & _ & _ & H).
  rewrite E. exact H.
Qed.

(** X16.  While [takeoff_in_progress] or [landing_in_progress] is set,
    no number of control-loop iterations sends anything or issues any
    request, and the loop on its own changes neither flag: velocity control
    stays suspended until some other thread clears the flag. *)
Theorem control_loop_suspended (k : nat) (w : W) :
  takeoff_in_progress w || landing_in_progress w = true ->
  exists w',
    control_loop k w = (Ret tt, w') /\
    trace w' = trace w /\
    takeoff_in_progress w' = takeoff_in_progress w /\
    landing_in_progress w' = landing_in_progress w.
Proof.
  revert w. induction k as [|k IH]; intros w Hp.
  - exists w. auto.
  - destruct (control_tick_in_phase w Hp) as (w1 & E & Htr).
    destruct (control_tick_run w) as (w1' & extra & E' & Ev & _).
    rewrite E in E'. injection E' as <-.
    destruct (evolves_globals _ _ _ Ev) as (Ht & _ & Hl & _).
    destruct (IH w1) as (w' & Ek & Htr' & Ht' & Hl').
    { rewrite Ht, Hl. exact Hp. }
    exists w'. cbn [control_loop]. unfold bind. rewrite E.
    split; [exact Ek|]. rewrite Htr', Ht', Hl'. auto.
Qed.

(** ** Command router: what each command does *)

Lemma velocity_mode_controllable (name : string) :
  velocity_mode name = true -> controllable_mode name = true.
Proof.
  unfold velocity_mode, controllable_mode.
  destruct (String.eqb name "GUIDED"), (String.eqb name "GUIDED_NOGPS"),
    (String.eqb name "BRAKE"), (String.eqb name "POSHOLD");
    cbn; auto.
Qed.

Lemma controllable_not_loiter (name : string) :
  controllable_mode name = true -> String.eqb name "LOITER" = false.
Proof.
  unfold controllable_mode. intros H.
  destruct (String.eqb_spec name "LOITER") as [->|]; [discriminate|reflexivity].
Qed.

(** X17.  A joystick command reaches the vehicle on the next iteration of
    the control loop: with the vehicle armed in a controllable mode and no
    takeoff or landing in progress, a joystick message whose four axes are
    numbers that [float] converts (none an int beyond the range of a
    double) is stored with the current time and acknowledged, and a
    control-loop iteration run right after it sends exactly the vx, vy, vz
    of that message. *)
Theorem joystick_reaches_vehicle (fuel : nat) (fields : list (string * JSON))
    (x y z r : Q) (w : W) (v : V) (name : string) :
  vehicle w = Some v ->
  armed v = true ->
  mode_name v = Some name ->
  In name controllable_modes ->
  takeoff_in_progress w = false ->
  landing_in_progress w = false ->
  dict_get fields "type" JNull = JStr "joystick" ->
  dict_get fields "vx" (JNum 0) = JNum x ->
  dict_get fields "vy" (JNum 0) = JNum y ->
  dict_get fields "vz" (JNum 0) = JNum z ->
  dict_get fields "yaw_rate" (JNum 0) = JNum r ->
  float_overflows x = false ->
  float_overflows y = false ->
  float_overflows z = false ->
  float_overflows r = false ->
  exists w1 w2,
    on_message fuel (Parsed (JObj fields)) w = (Ret tt, w1) /\
    last_velocity_cmd w1 = {| vx := x; vy := y; vz := z; yaw_rate := r |} /\
    last_joystick_time w1 = now w /\
    control_tick w1 = (Ret tt, w2) /\
    trace w2 =
      trace w ++
      [EvReply (JObj [("type", JStr "ack"); ("cmd", JStr "joystick");
                      ("ok", JBool true)]);
       EvMavlink (ned_velocity_msg x y z)].
Proof.
  intros Hv Ha Hm Hin Ht Hl Hty Hx Hy Hz Hr Hox Hoy Hoz Hor.
  pose proof (controllable_not_loiter name (controllable_mode_spec name Hin)) as Hnl.
  pose (w1 := with_trace
                (trace w ++
                 [EvReply (JObj [("type", JStr "ack"); ("cmd", JStr "joystick");
                                 ("ok", JBool true)])])
                (with_command {| vx := x; vy := y; vz := z; yaw_rate := r |}
                   (now w) w)).
  assert (E : on_message fuel (Parsed (JObj fields)) w = (Ret tt, w1)).
  { unfold on_message, on_joystick, write_message, data_get, py_float.
    run with (rewrite ?Hty, ?Hx, ?Hy, ?Hz, ?Hr, ?Hv, ?Hm, ?Hnl,
                      ?Hox, ?Hoy, ?Hoz, ?Hor).
    reflexivity. }
  destruct (control_tick_fresh w1 v name) as (w2 & E2 & T2);
    [exact Hv|exact Ha|exact Ht|exact Hl|exact Hm|exact Hin
    |cbn; unfold VELOCITY_TIMEOUT; lra|].
  exists w1, w2. split; [exact E|]. split; [reflexivity|]. split; [reflexivity|].
  split; [exact E2|]. rewrite T2. cbn. rewrite <- app_assoc. reflexivity.
Qed.

(** X18.  In LOITER a joystick command is refused before its axes are even
    looked at: whatever the message holds, the handler answers with one
    negative acknowledgement and leaves the stored command, its timestamp
    and the vehicle alone. *)
Theorem joystick_refused_in_loiter (fuel : nat) (fields : list (string * JSON))
    (w : W) (v : V) :
  vehicle w = Some v ->
  mode_name v = Some "LOITER" ->
  dict_get fields "type" JNull = JStr "joystick" ->
  exists more,
    on_message fuel (Parsed (JObj fields)) w =
    (Ret tt,
     with_trace
       (trace w ++
        [EvReply (JObj (("type", JStr "ack") :: ("cmd", JStr "joystick")
                          :: ("ok", JBool false) :: more))]) w).
Proof.
  intros Hv Hm Hty.
  unfold on_message, on_joystick, write_message, data_get.
  run with (rewrite ?Hty, ?Hv, ?Hm).
  eexists. reflexivity.
Qed.

(** X19.  A brake command in GUIDED, GUIDED_NOGPS or POSHOLD with the
    vehicle armed stops it at once: one zero-velocity message is sent, the
    stored joystick command is reset to zero and its timestamp to 0, and
    the command is acknowledged; the mode is not changed. *)
Theorem brake_zeroes_velocity (fuel : nat) (fields : list (string * JSON))
    (w : W) (v : V) (name : string) :
  vehicle w = Some v ->
  armed v = true ->
  mode_name v = Some name ->
  In name ["GUIDED"; "GUIDED_NOGPS"; "POSHOLD"] ->
  dict_get fields "type" JNull = JStr "brake" ->
  exists w',
    on_message fuel (Parsed (JObj fields)) w = (Ret tt, w') /\
    last_velocity_cmd w' = zero_cmd /\
    last_joystick_time w' = 0 /\
    trace w' =
      trace w ++
      [EvMavlink (ned_velocity_msg 0 0 0);
       EvReply (JObj [("type", JStr "ack"); ("cmd", JStr "brake");
                      ("ok", JBool true)])].
Proof.
  intros Hv Ha Hm Hin Hty.
  assert (Hvm : velocity_mode name = true).
  { cbn [In] in Hin. destruct Hin as [<-|[<-|[<-|[]]]]; reflexivity. }
  unfold on_message, on_brake, send_ned_velocity, write_message, data_get.
  destruct (send_mavlink (ned_velocity_msg 0 0 0) v) as [v'|] eqn:Hs;
    run with (rewrite ?Hty, ?Hv, ?Ha, ?Hm, ?Hvm, ?Hs);
    eexists; (split; [reflexivity|]); cbn;
    rewrite <- app_assoc; auto.
Qed.

(** X20.  A land command sets [landing_in_progress] exactly when the
    switch to LAND succeeded: the handler answers once, with the verdict of
    [ensure_mode] as its [ok]; on [ok] the vehicle reports LAND and the
    flag is set, otherwise the flag is as before. *)
Theorem land_sets_flag_on_success (fuel : nat) (fields : list (string * JSON))
    (w : W) :
  (13 <= fuel)%nat ->
  dict_get fields "type" JNull = JStr "land" ->
  exists ok w',
    fst (ensure_mode fuel "LAND" default_attempts default_wait_each w) = Ret ok /\
    on_message fuel (Parsed (JObj fields)) w = (Ret tt, w') /\
    replies (trace w') =
      replies (trace w) ++
      [JObj [("type", JStr "ack"); ("cmd", JStr "land"); ("ok", JBool ok)]] /\
    landing_in_progress w' = (ok || landing_in_progress w) /\
    (ok = true ->
     exists v', vehicle w' = Some v' /\ mode_name v' = Some "LAND").
Proof.
  intros Hf Hty.
  destruct (ensure_mode_settles fuel "LAND" 3 w Hf)
    as (ok & w1 & extra & E & Ev & Hx).
  pose proof (evolves_replies _ _ _ Ev Hx) as Hrep.
  destruct (evolves_globals _ _ _ Ev) as (_ & _ & Hl & _).
  exists ok.
  unfold on_message, write_message, data_get.
  unfold bind at 1. unfold ret at 1. rewrite Hty.
  cbn [is_type String.eqb Ascii.eqb Bool.eqb].
  unfold bind at 1. unfold default_attempts. rewrite E.
  destruct ok; run; eexists; (split; [reflexivity|]);
    (split; [reflexivity|]); cbn;
    rewrite replies_app, Hrep; (split; [reflexivity|]);
    (split; [rewrite ?Hl; reflexivity|]).
  - intros _. exact (ensure_mode_true_run _ _ _ _ _ _ E).
  - discriminate.
Qed.

(** X21.  A frame that is valid JSON but not an object (null, a boolean,
    a number, a string, an array) gets no reply at all: [data.get] raises
    AttributeError out of the handler, and nothing has changed. *)
Theorem non_object_frame_raises (fuel : nat) (data : JSON) (w : W) :
  match data with JObj _ => False | _ => True end ->
  exists msg,
    on_message fuel (Parsed data) w = (Raise (AttributeError msg), w).
Proof.
  intros H. destruct data; try contradiction; eexists; reflexivity.
Qed.

(** X22.  A takeoff command is acknowledged at once, before anything is
    done: for a requested altitude that is a number [float] converts (not
    an int beyond the range of a double; 1.5 m when the message has none)
    the handler starts a [do_takeoff] thread for it, answers [ok] true with
    that altitude, and itself neither touches the vehicle nor looks at
    whether one is connected. *)
Theorem takeoff_acknowledged_at_once (fuel : nat)
    (fields : list (string * JSON)) (alt : Q) (w : W) :
  dict_get fields "type" JNull = JStr "takeoff" ->
  dict_get fields "alt" (JNum DEFAULT_TAKEOFF_ALT) = JNum alt ->
  float_overflows alt = false ->
  on_message fuel (Parsed (JObj fields)) w =
  (Ret tt,
   with_trace
     (trace w ++
      [EvSpawn (ThDoTakeoff alt);
       EvReply (JObj [("type", JStr "ack"); ("cmd", JStr "takeoff");
                      ("alt", JNum alt); ("ok", JBool true)])]) w) /\
  (assoc_get "alt" fields = None -> alt = 15 # 10).
Proof.
  intros Hty Halt Hoa. split.
  - unfold on_message, write_message, data_get, py_float.
    run with (rewrite ?Hty, ?Halt, ?Hoa).
    unfold with_trace. cbn. rewrite <- app_assoc. reflexivity.
  - intros Hnone. unfold dict_get in Halt. rewrite Hnone in Halt.
    injection Halt as <-. reflexivity.
Qed.

(** X23.  A mode command with no mode, or an empty one, is turned down
    without asking the vehicle anything: one negative acknowledgement and
    no mode request. *)
Theorem empty_mode_refused (fuel : nat) (fields : list (string * JSON)) (w : W) :
  dict_get fields "type" JNull = JStr "mode" ->
  dict_get fields "mode" (JStr EmptyString) = JStr EmptyString ->
  exists more,
    on_message fuel (Parsed (JObj fields)) w =
    (Ret tt,
     with_trace
       (trace w ++
        [EvReply (JObj (("type", JStr "ack") :: ("cmd", JStr "mode")
                          :: ("ok", JBool false) :: more))]) w).
Proof.
  intros Hty Hm.
  unfold on_message, on_mode, write_message, data_get, py_str.
  run with (rewrite ?Hty, ?Hm).
  eexists. reflexivity.
Qed.

(** ** Status snapshot *)

(** X24.  The status snapshot reports [can_control] true exactly when the
    vehicle is armed and its mode reads GUIDED, GUIDED_NOGPS or POSHOLD.
    Every mode it reports as controllable is one the control loop sends
    velocities in; the converse fails for BRAKE, which the control loop
    treats as controllable and the snapshot does not. *)
Theorem can_control_report (v : V) :
  field (control_status_of v) "can_control" =
    Some (JBool (armed v &&
                 match mode_name v with
                 | Some name => velocity_mode name
                 | None => false
                 end)) /\
  (forall name, velocity_mode name = true -> controllable_mode name = true) /\
  (controllable_mode "BRAKE" = true /\ velocity_mode "BRAKE" = false).
Proof.
  split; [|split; [exact velocity_mode_controllable|split; reflexivity]].
  unfold control_status_of, velocity_mode.
  destruct (armed v); [|reflexivity].
  destruct (mode_name v) as [name|]; [|reflexivity].
  destruct (String.eqb name "GUIDED"), (String.eqb name "GUIDED_NOGPS"),
    (String.eqb name "POSHOLD"), (String.eqb name "LOITER"),
    (String.eqb name "LAND"); reflexivity.
Qed.

(** ** Status text log *)

Lemma deque_append_length {A} (maxlen : nat) (x : A) (d : list A) :
  length (deque_append maxlen x d) = Nat.min (S (length d)) maxlen.
Proof.
  unfold deque_append. rewrite length_skipn, length_app.
  cbn [length]. lia.
Qed.




(** The entry the listener stores for a message received at time [t]. *)
Lemma listener_run (msg : StatusMsg) (w : W) :
  _statustext_listener msg w =
  (Ret tt,
   with_statustext
     (deque_append STATUSTEXT_MAXLEN
        {| st_time := now w;
           st_severity := match msg_severity msg with
                          | Some sev => sev
                          | None => JNull
                          end;
           st_text := strip_nul (match msg_text msg with
                                 | Some t => t
                                 | None => EmptyString
                                 end) |}
        (recent_statustext w)) w).
Proof. reflexivity. Qed.

(** X25.  The status text log is bounded: fed any sequence of STATUSTEXT
    messages, the listener lets the log grow by one entry per message up to
    50 entries and never beyond, and touches nothing but the log. *)
Theorem statustext_log_bounded (msgs : list StatusMsg) (w : W) :
  (length (recent_statustext w) <= 50)%nat ->
  length (recent_statustext (listen msgs w)) =
    Nat.min (length (recent_statustext w) + length msgs) 50 /\
  trace (listen msgs w) = trace w /\
  vehicle (listen msgs w) = vehicle w /\
  now (listen msgs w) = now w /\
  last_velocity_cmd (listen msgs w) = last_velocity_cmd w /\
  last_joystick_time (listen msgs w) = last_joystick_time w /\
  takeoff_in_progress (listen msgs w) = takeoff_in_progress w /\
  takeoff_target_alt (listen msgs w) = takeoff_target_alt w /\
  landing_in_progress (listen msgs w) = landing_in_progress w.
Proof.
  revert w. induction msgs as [|m msgs IH]; intros w Hlen.
  - unfold listen. cbn [fold_left length].
    rewrite Nat.add_0_r, Nat.min_l by exact Hlen. repeat split.
  - unfold listen in *. cbn [fold_left length].
    rewrite listener_run. cbn [snd].
    destruct (IH (with_statustext
                    (deque_append STATUSTEXT_MAXLEN
                       {| st_time := now w;
                          st_severity := match msg_severity m with
                                         | Some sev => sev
                                         | None => JNull
                                         end;
                          st_text := strip_nul (match msg_text m with
                                                | Some t => t
                                                | None => EmptyString
                                                end) |}
                       (recent_statustext w)) w))
      as (Hl & Ht & Hv & Hn & Hc & Hj & Htip & Htta & Hlip).
    { cbn. rewrite deque_append_length. unfold STATUSTEXT_MAXLEN. lia. }
    rewrite Hl, Ht, Hv, Hn, Hc, Hj, Htip, Htta, Hlip.
    unfold with_statustext.
    cbn [recent_statustext trace vehicle now last_velocity_cmd
         last_joystick_time takeoff_in_progress takeoff_target_alt
         landing_in_progress].
    rewrite deque_append_length.
    unfold STATUSTEXT_MAXLEN. split; [lia|repeat split].
Qed.


Lemma assoc_get_dict_set (key : string) (v : JSON) (fields : list (string * JSON)) :
  assoc_get key (dict_set key v fields) = Some v.
Proof.
  induction fields as [|[k x] rest IH]; cbn.
  - rewrite String.eqb_refl. reflexivity.
  - destruct (String.eqb k key) eqn:E; cbn; rewrite E; [reflexivity|exact IH].
Qed.

(** X27.  A diag command reports the five newest status texts: its one
    reply is a [diag_reply] whose [recent_statustext] holds the last
    [min 5 n] of the [n] logged entries, oldest first, and the handler
    changes nothing else. *)
Theorem diag_reports_newest_five (fuel : nat) (fields : list (string * JSON))
    (w : W) :
  dict_get fields "type" JNull = JStr "diag" ->
  exists st older,
    on_message fuel (Parsed (JObj fields)) w =
      (Ret tt,
       with_trace
         (trace w ++
          [EvReply (JObj [("type", JStr "diag_reply"); ("diag", JObj st)])]) w) /\
    assoc_get "recent_statustext" st =
      Some (JArr (map statustext_json (last5 (recent_statustext w)))) /\
    recent_statustext w = older ++ last5 (recent_statustext w) /\
    length (last5 (recent_statustext w)) =
      Nat.min 5 (length (recent_statustext w)).
Proof.
  intros Hty.
  destruct (get_basic_status_pure w) as [st Est].
  exists (dict_set "recent_statustext"
            (JArr (map statustext_json (last5 (recent_statustext w)))) st),
    (firstn (length (recent_statustext w) - 5) (recent_statustext w)).
  split; [|split; [apply assoc_get_dict_set|split]].
  - unfold on_message, on_diag, write_message, data_get.
    unfold bind at 1. unfold ret at 1. rewrite Hty.
    cbn [is_type String.eqb Ascii.eqb Bool.eqb].
    unfold bind at 1. rewrite Est. reflexivity.
  - unfold last5. symmetry. apply firstn_skipn.
  - unfold last5. rewrite length_skipn. lia.
Qed.

(** ** Telemetry broadcast *)

Lemma broadcast_spec (msg : JSON) (clients : list Client) :
  broadcast msg clients =
  (filter write_fails clients,
   map (fun c => (c, msg)) (filter delivers clients)).
Proof.
  induction clients as [|c rest IH]; [reflexivity|].
  cbn. rewrite IH. unfold delivers. destruct (write_fails c); reflexivity.
Qed.

Lemma client_eqb_sym (c d : Client) : client_eqb c d = client_eqb d c.
Proof. unfold client_eqb. apply Nat.eqb_sym. Qed.

Lemma client_eqb_refl (c : Client) : client_eqb c c = true.
Proof. unfold client_eqb. apply Nat.eqb_refl. Qed.

Lemma NoDup_ids_filter (p : Client -> bool) (l : list Client) :
  NoDup (map client_id l) -> NoDup (map client_id (filter p l)).
Proof.
  induction l as [|c rest IH]; cbn; [auto|].
  intros H. inversion H as [|? ? Hn Hr]; subst.
  destruct (p c); cbn; [|auto].
  constructor; [|auto].
  intros Hin. apply Hn. apply in_map_iff in Hin.
  destruct Hin as (d & Hd & Hf). apply filter_In in Hf.
  apply in_map_iff. exists d. tauto.
Qed.

Lemma NoDup_ids_inj (l : list Client) (c d : Client) :
  NoDup (map client_id l) -> In c l -> In d l ->
  client_eqb c d = true -> c = d.
Proof.
  unfold client_eqb. intros H Hc Hd E. apply Nat.eqb_eq in E.
  induction l as [|x rest IH]; [contradiction|].
  cbn in H. inversion H as [|? ? Hn Hr]; subst.
  destruct Hc as [->|Hc], Hd as [->|Hd]; auto.
  - exfalso. apply Hn. rewrite E. apply in_map. exact Hd.
  - exfalso. apply Hn. rewrite <- E. apply in_map. exact Hc.
Qed.

Lemma filter_all {A} (p : A -> bool) (l : list A) :
  (forall x, In x l -> p x = true) -> filter p l = l.
Proof.
  induction l as [|x rest IH]; cbn; intros H; [reflexivity|].
  rewrite (H x (or_introl eq_refl)), IH; auto.
Qed.

(** Taking one client out of the set. *)
Lemma remove_step (d : Client) (l : list Client) :
  NoDup (map client_id l) ->
  (if existsb (client_eqb d) l then remove_client d l else l) =
  filter (fun c => negb (client_eqb c d)) l.
Proof.
  intros Hnd.
  destruct (existsb (client_eqb d) l) eqn:Hex.
  - clear Hex. induction l as [|c rest IH]; [reflexivity|].
    cbn in *. inversion Hnd as [|? ? Hn Hr]; subst.
    destruct (client_eqb c d) eqn:E; cbn.
    + symmetry. apply filter_all. intros x Hx.
      destruct (client_eqb x d) eqn:Ex; [|reflexivity].
      exfalso. apply Hn. unfold client_eqb in E, Ex.
      apply Nat.eqb_eq in E, Ex. rewrite E, <- Ex. apply in_map. exact Hx.
    + rewrite IH by exact Hr. reflexivity.
  - symmetry. apply filter_all. intros x Hx.
    destruct (client_eqb x d) eqn:Ex; [|reflexivity].
    assert (existsb (client_eqb d) l = true); [|congruence].
    apply existsb_exists. exists x. rewrite client_eqb_sym. auto.
Qed.

Lemma filter_filter {A} (p q : A -> bool) (l : list A) :
  filter p (filter q l) = filter (fun x => q x && p x) l.
Proof.
  induction l as [|x rest IH]; [reflexivity|].
  cbn. destruct (q x); cbn; [destruct (p x)|]; rewrite IH; reflexivity.
Qed.

Lemma prune_filter (dead l : list Client) :
  NoDup (map client_id l) ->
  prune dead l = filter (fun c => negb (existsb (client_eqb c) dead)) l.
Proof.
  unfold prune. revert l.
  induction dead as [|d dead IH]; intros l Hnd; cbn.
  - symmetry. apply filter_all. reflexivity.
  - rewrite remove_step by exact Hnd.
    rewrite IH by (apply NoDup_ids_filter; exact Hnd).
    rewrite filter_filter. apply filter_ext. intros c.
    destruct (client_eqb c d); reflexivity.
Qed.

(** Pruning the clients whose write failed leaves those it reached. *)
Lemma prune_failed (l : list Client) :
  NoDup (map client_id l) ->
  prune (filter write_fails l) l = filter delivers l.
Proof.
  intros Hnd. rewrite prune_filter by exact Hnd.
  apply filter_ext_in. intros c Hc. unfold delivers. f_equal.
  destruct (write_fails c) eqn:Hw.
  - apply existsb_exists. exists c.
    split; [apply filter_In; auto|apply client_eqb_refl].
  - destruct (existsb (client_eqb c) (filter write_fails l)) eqn:Hex;
      [|reflexivity].
    apply existsb_exists in Hex. destruct Hex as (d & Hd & E).
    apply filter_In in Hd. destruct Hd as [Hd Hwd].
    rewrite (NoDup_ids_inj l c d Hnd Hc Hd E) in Hw. congruence.
Qed.

(** X28.  A telemetry round with a vehicle and at least one subscriber
    writes one and the same packet to every subscriber, removes exactly
    those whose write raised and keeps all the others, in the same round;
    it issues no request to the vehicle, changes no server state and then
    sleeps 0.5 s.  The packet is of type telemetry and carries the command
    age computed from the stored joystick timestamp. *)
Theorem telemetry_prunes_failed (clients : list Client) (w : W) (v : V) :
  vehicle w = Some v ->
  clients <> [] ->
  NoDup (map client_id clients) ->
  exists pkt w',
    telemetry_tick clients w =
      (Ret (filter delivers clients,
            map (fun c => (c, pkt)) (filter delivers clients)), w') /\
    field pkt "type" = Some (JStr "telemetry") /\
    field pkt "cmd_age_ms" =
      Some (JNum (inject_Z (cmd_age_ms_of (now w) (last_joystick_time w)))) /\
    evolves [] w w' /\
    now w' = now w + (5 # 10).
Proof.
  intros Hv Hne Hnd.
  destruct (get_basic_status_pure w) as [st Est].
  exists (telemetry_packet st (cmd_age_ms_of (now w) (last_joystick_time w))
            (py_int (now w * 1000))).
  eexists. split; [|split; [reflexivity|split; [reflexivity|split]]].
  - unfold telemetry_tick, try_except.
    unfold bind at 1. rewrite vehicle_present_run, Hv.
    destruct clients as [|c rest]; [congruence|].
    cbn [andb].
    unfold bind at 1. unfold bind at 1. rewrite Est.
    unfold bind at 1. unfold time_time at 1. unfold gets at 1.
    unfold bind at 1. unfold gets at 1.
    unfold bind at 1. unfold time_time at 1. unfold gets at 1.
    rewrite broadcast_spec, prune_failed by exact Hnd.
    unfold ret at 1. unfold bind at 1.
    unfold time_sleep, modify, ret. reflexivity.
  - apply evolves_sleep.
  - reflexivity.
Qed.

(** X29.  With no subscriber, or with no vehicle connected, a telemetry
    round writes nothing and removes nobody; it only sleeps 0.5 s. *)
Theorem telemetry_idle (clients : list Client) (w : W) :
  clients = [] \/ vehicle w = None ->
  exists w',
    telemetry_tick clients w = (Ret (clients, []), w') /\
    evolves [] w w' /\
    now w' = now w + (5 # 10).
Proof.
  intros Hidle.
  exists (with_now (now w + (5 # 10))
            (with_vehicle (option_map (elapse (5 # 10)) (vehicle w)) w)).
  split; [|split; [apply evolves_sleep|reflexivity]].
  unfold telemetry_tick, try_except.
  unfold bind at 1. rewrite vehicle_present_run.
  destruct Hidle as [->|Hv]; [reflexivity|].
  replace (match vehicle w with Some _ => true | None => false end)
    with false by (rewrite Hv; reflexivity).
  rewrite andb_false_r. reflexivity.
Qed.

Lemma py_int_floor (q : Q) :
  0 <= q ->
  (0 <= py_int q)%Z /\ inject_Z (py_int q) <= q /\ q < inject_Z (py_int q) + 1.
Proof.
  destruct q as [n d]. unfold py_int, Qle, Qlt. cbn.
  intros Hn. rewrite Z.mul_1_r in Hn.
  rewrite Z.quot_div_nonneg by lia.
  pose proof (Z.div_mod n (Zpos d)) as Hdm.
  pose proof (Z.mod_pos_bound n (Zpos d)) as Hmb.
  pose proof (Z.div_pos n (Zpos d)) as Hdp.
  split; [lia|]. split; nia.
Qed.

(** X30.  The command age in a telemetry packet is -1 when no joystick
    command is on record (a stored timestamp of 0 or less, as at start-up
    and after a brake), and otherwise the whole number of milliseconds
    since the stored timestamp. *)
Theorem cmd_age_ms_meaning (t last : Q) :
  (last <= 0 -> cmd_age_ms_of t last = (-1)%Z) /\
  (0 < last -> last <= t ->
   (0 <= cmd_age_ms_of t last)%Z /\
   inject_Z (cmd_age_ms_of t last) <= (t - last) * 1000 /\
   (t - last) * 1000 < inject_Z (cmd_age_ms_of t last) + 1).
Proof.
  unfold cmd_age_ms_of. split.
  - intros H. apply Qltb_ge in H. rewrite H. reflexivity.
  - intros H Hle. pose proof H as Hb. apply Qltb_lt in Hb. rewrite Hb.
    apply py_int_floor. nra.
Qed.

(** ** Numbers that [float] cannot convert *)

(** The overflow threshold sits half a unit in the last place above the
    largest double, [2^1024 - 2^971]: that double converts, the threshold
    and a 401-digit int do not. *)
Lemma float_overflows_threshold :
  float_overflows (inject_Z (2 ^ 1024 - 2 ^ 971)) = false /\
  float_overflows (inject_Z (2 ^ 1024 - 2 ^ 970)) = true /\
  float_overflows (inject_Z (- (2 ^ 1024 - 2 ^ 970))) = true /\
  float_overflows (inject_Z (10 ^ 400)) = true.
Proof. repeat split; vm_compute; reflexivity. Qed.

(** Outside LOITER a joystick message whose vx is an int too large for a
    double makes the handler raise OverflowError at line 413: no reply is
    written and nothing is stored. *)
Lemma joystick_overflow_raises (fuel : nat) (fields : list (string * JSON))
    (x : Q) (w : W) :
  dict_get fields "type" JNull = JStr "joystick" ->
  dict_get fields "vx" (JNum 0) = JNum x ->
  float_overflows x = true ->
  match vehicle w with
  | Some v => reads_mode "LOITER" v = false
  | None => True
  end ->
  exists msg,
    on_message fuel (Parsed (JObj fields)) w = (Raise (OverflowError msg), w).
Proof.
  intros Hty Hx Hox Hnl.
  unfold on_message, on_joystick, write_message, data_get, py_float.
  unfold reads_mode in Hnl.
  destruct (vehicle w) as [v|] eqn:Hv;
    [destruct (mode_name v) as [name|] eqn:Hm|];
    run with (rewrite ?Hty, ?Hx, ?Hox, ?Hv, ?Hm, ?Hnl);
    eexists; reflexivity.
Qed.

(** The same for the altitude of a takeoff message (line 446): no thread
    is started and no acknowledgement is written. *)
Lemma takeoff_overflow_raises (fuel : nat) (fields : list (string * JSON))
    (alt : Q) (w : W) :
  dict_get fields "type" JNull = JStr "takeoff" ->
  dict_get fields "alt" (JNum DEFAULT_TAKEOFF_ALT) = JNum alt ->
  float_overflows alt = true ->
  exists msg,
    on_message fuel (Parsed (JObj fields)) w = (Raise (OverflowError msg), w).
Proof.
  intros Hty Halt Hoa.
  unfold on_message, write_message, data_get, py_float.
  run with (rewrite ?Hty, ?Halt, ?Hoa).
  eexists. reflexivity.
Qed.

End Properties.

(** * The properties on concrete runs *)

Lemma ensure_mode_idempotent_witness :
  ensure_mode 13 "guided" default_attempts default_wait_each w_aloft
  = (Ret true, w_aloft).
Proof.
  apply (ensure_mode_idempotent 13 w_aloft
           (sim_vehicle "GUIDED" true (AltValue 1)) "guided");
    reflexivity.
Defined.

Lemma control_tick_watchdog_zero_witness :
  exists w' m,
    control_tick w_stale = (Ret tt, w') /\
    trace w' = trace w_stale ++ [EvMavlink m] /\
    vel_x m = 0 /\ vel_y m = 0 /\ vel_z m = 0 /\ msg_yaw_rate m = 0.
Proof.
  apply (control_tick_watchdog_zero w_stale
           (sim_vehicle "GUIDED" true (AltValue 1)) "GUIDED");
    try reflexivity.
  cbn. auto.
Defined.

Lemma control_tick_forwards_velocity_witness :
  exists w' m,
    control_tick w_fresh = (Ret tt, w') /\
    trace w' = trace w_fresh ++ [EvMavlink m] /\
    vel_x m = 1 /\ vel_y m = 0 /\ vel_z m = 0 /\
    msg_yaw_rate m = 0 /\
    Z.testbit (type_mask m) 11 = true.
Proof.
  apply (control_tick_forwards_velocity w_fresh
           (sim_vehicle "GUIDED" true (AltValue 1)) "GUIDED");
    try reflexivity.
  - cbn. auto.
  - vm_compute. discriminate.
Defined.

(** C4 as stated fails on the yaw rate: with a fresh stored command of yaw
    rate 0.5, the one message sent carries yaw rate 0. *)
Lemma control_tick_drops_yaw_rate :
  now w_fresh - last_joystick_time w_fresh <= VELOCITY_TIMEOUT /\
  exists m,
    velocities_sent (trace (snd (control_tick w_fresh))) = [m] /\
    ~ msg_yaw_rate m == yaw_rate (last_velocity_cmd w_fresh).
Proof.
  split; [vm_compute; discriminate|].
  eexists. split; [vm_compute; reflexivity|].
  vm_compute. discriminate.
Qed.

Lemma control_tick_silent_in_phase_witness :
  exists w',
    control_tick (deliver 35 [joystick_frame] w_climbed) = (Ret tt, w') /\
    trace w' = trace (deliver 35 [joystick_frame] w_climbed) /\
    velocities_sent (trace w') = velocities_sent (trace w_climbed).
Proof.
  apply (control_tick_silent_in_phase 35 [joystick_frame] w_climbed);
    reflexivity.
Defined.

(** C3 on the code.  Armed, in LAND, with [landing_in_progress] set and
    the altitude at 0.1 m, a tick takes the guard of lines 551-553, sleeps
    and leaves the flag set; however many ticks follow, it stays set. *)
Theorem control_tick_never_clears_landing :
  fst (control_tick w_touched_down) = Ret tt /\
  landing_in_progress (snd (control_tick w_touched_down)) = true /\
  landing_in_progress (snd (control_loop 100 w_touched_down)) = true.
Proof.
  repeat split; vm_compute; reflexivity.
Qed.

(** C5 on the code.  [do_takeoff(1.5)] on the ground in STABILIZE raises
    TypeError inside [ensure_mode] ([range("GUIDED_NOGPS")]); no mode
    request, no arming and no takeoff command are issued, and
    [takeoff_in_progress] stays False. *)
Theorem do_takeoff_raises_on_ground :
  do_takeoff 35 (15 # 10) w_parked =
    (Raise (TypeError "range() integer end argument expected, got str"),
     w_parked).
Proof.
  apply (do_takeoff_type_error 35 (15 # 10) w_parked
           (sim_vehicle "STABILIZE" false (AltValue 0))).
  - reflexivity.
  - vm_compute. discriminate.
  - discriminate.
Qed.

Lemma watcher_ends_takeoff_witness :
  exists w',
    watcher 61 (15 # 10) w_climbed = (Ret tt, w') /\
    takeoff_in_progress w' = false /\
    takeoff_target_alt w' = takeoff_target_alt w_climbed.
Proof.
  apply (watcher_ends_takeoff 61 (15 # 10) w_climbed). lia.
Defined.

(** C6 as stated fails: on both exits of the monitor (target reached, and
    timeout) [takeoff_target_alt] still holds the target afterwards. *)
Lemma watcher_keeps_target :
  fst (watcher 61 (15 # 10) w_climbed) = Ret tt /\
  takeoff_in_progress (snd (watcher 61 (15 # 10) w_climbed)) = false /\
  takeoff_target_alt (snd (watcher 61 (15 # 10) w_climbed)) <> None /\
  fst (watcher 61 (15 # 10) w_stuck_on_ground) = Ret tt /\
  takeoff_in_progress (snd (watcher 61 (15 # 10) w_stuck_on_ground)) = false /\
  takeoff_target_alt (snd (watcher 61 (15 # 10) w_stuck_on_ground)) <> None.
Proof.
  repeat split; vm_compute; (reflexivity || discriminate).
Qed.

Lemma disarm_vehicle_airborne_witness :
  disarm_vehicle 28 w_aloft = (Ret false, w_aloft).
Proof.
  refine (disarm_vehicle_airborne 28 w_aloft
            (sim_vehicle "GUIDED" true (AltValue 1)) 1 _ _ _);
    reflexivity.
Defined.

(** C7 as stated fails for a disarmed vehicle: above 0.2 m the call
    returns success, not failure. *)
Lemma disarm_vehicle_airborne_disarmed :
  2 # 10 < reported_alt (sim_vehicle "STABILIZE" false (AltValue 1)) /\
  disarm_vehicle 28 w_disarmed_aloft = (Ret true, w_disarmed_aloft) /\
  fst (disarm_vehicle 28 w_disarmed_aloft) <> Ret false.
Proof.
  split; [reflexivity|]. split; [reflexivity|].
  vm_compute. discriminate.
Qed.

Lemma on_message_answers_once_witness :
  answers_once (on_message 35 arm_frame) w_parked (expected_reply arm_frame).
Proof.
  apply (on_message_answers_once 35 arm_frame w_parked);
    [lia|reflexivity].
Defined.

(** C8 as stated fails for [diag]: its one reply is a [diag_reply], not an
    acknowledgement. *)
Lemma diag_reply_is_not_ack :
  exists r,
    replies (trace (snd (on_message 35 diag_frame w_parked))) = [r] /\
    field r "type" = Some (JStr "diag_reply") /\
    ~ is_ack_for (JStr "diag") r.
Proof.
  eexists. split; [vm_compute; reflexivity|].
  split; [reflexivity|].
  intros (Hty & _). discriminate Hty.
Qed.

Lemma unreadable_altitude_is_ground_witness :
  safe_alt w_blind = (Ret 0, w_blind) /\
  (forall v, vehicle w_blind = Some v -> armed v = true ->
     exists b w',
       disarm_vehicle 28 w_blind = (Ret b, w') /\
       trace w' = trace w_blind ++ [EvSetArmed false]) /\
  (forall v, vehicle w_blind = Some v ->
     do_takeoff 28 (15 # 10) w_blind = takeoff_sequence 28 (15 # 10) w_blind).
Proof.
  apply (unreadable_altitude_is_ground 28 (15 # 10) w_blind);
    [lia|reflexivity].
Defined.

(** ** Further properties on concrete runs *)

Lemma ensure_mode_true_in_mode_witness :
  exists v',
    vehicle (snd (ensure_mode 13 "guided" default_attempts default_wait_each
                    w_parked)) = Some v' /\
    reads_mode (upper "guided") v' = true.
Proof.
  apply (ensure_mode_true_in_mode 13 "guided" default_attempts
           default_wait_each w_parked).
  vm_compute. reflexivity.
Defined.

Lemma ensure_mode_attempt_count_witness :
  exists b w' j,
    ensure_mode 13 "guided" (PyInt 3) default_wait_each w_deaf = (Ret b, w') /\
    (j <= Z.to_nat 3)%nat /\
    trace w' = trace w_deaf ++ repeat (EvSetMode (upper "guided")) j /\
    (b = false -> j = Z.to_nat 3).
Proof.
  apply (ensure_mode_attempt_count 13 "guided" 3 w_deaf v_deaf);
    [lia|reflexivity|reflexivity].
Defined.

Lemma ensure_mode_blocking_bound_witness :
  now w_deaf <= now (snd (ensure_mode 13 "guided" (PyInt 3) 6 w_deaf)) /\
  now (snd (ensure_mode 13 "guided" (PyInt 3) 6 w_deaf)) - now w_deaf
    <= budget (Z.to_nat 3) (6 + (5 # 10)).
Proof.
  apply (ensure_mode_blocking_bound 13 "guided" 3 6 w_deaf _
           (fst (ensure_mode 13 "guided" (PyInt 3) 6 w_deaf))).
  - vm_compute. discriminate.
  - apply surjective_pairing.
Defined.

Lemma arm_vehicle_verdict_witness :
  exists b w' v',
    arm_vehicle 35 w_parked = (Ret b, w') /\
    vehicle w' = Some v' /\ armed v' = b /\
    trace w' = trace w_parked ++ [EvSetArmed true].
Proof.
  refine (arm_vehicle_verdict 35 w_parked
            (sim_vehicle "STABILIZE" false (AltValue 0)) _ _);
    [lia|reflexivity].
Defined.

Lemma disarm_vehicle_verdict_witness :
  exists b w' v',
    disarm_vehicle 28 w_aloft = (Ret b, w') /\
    vehicle w' = Some v' /\ b = negb (armed v') /\
    (trace w' = trace w_aloft \/ trace w' = trace w_aloft ++ [EvSetArmed false]).
Proof.
  apply (disarm_vehicle_verdict 28 w_aloft
           (sim_vehicle "GUIDED" true (AltValue 1)));
    [lia|reflexivity].
Defined.

Lemma controllers_without_vehicle_witness :
  ensure_mode 13 "GUIDED" default_attempts default_wait_each w_offline
    = (Ret false, w_offline) /\
  arm_vehicle 13 w_offline = (Ret false, w_offline) /\
  disarm_vehicle 13 w_offline = (Ret false, w_offline) /\
  send_ned_velocity 1 0 0 0 w_offline = (Ret tt, w_offline) /\
  do_takeoff 13 (15 # 10) w_offline = (Ret tt, w_offline).
Proof.
  apply (controllers_without_vehicle 13 "GUIDED" default_attempts
           default_wait_each 1 0 0 0 (15 # 10) w_offline).
  reflexivity.
Defined.

Lemma do_takeoff_rejected_airborne_witness :
  do_takeoff 35 (15 # 10) w_aloft = (Ret tt, w_aloft).
Proof.
  apply (do_takeoff_rejected_airborne 35 (15 # 10) 1 w_aloft
           (sim_vehicle "GUIDED" true (AltValue 1)));
    reflexivity.
Defined.


Lemma watcher_settles_two_seconds_witness :
  exists w',
    watcher 61 (15 # 10) w_climbed = (Ret tt, w') /\
    now w' = now w_climbed + 2 /\
    takeoff_in_progress w' = false.
Proof.
  apply (watcher_settles_two_seconds 61 (15 # 10) (15 # 10) w_climbed
           (sim_vehicle "GUIDED" true (AltValue (15 # 10))));
    [lia|reflexivity|reflexivity|vm_compute; discriminate].
Defined.

Lemma control_tick_idle_witness :
  trace (snd (control_tick w_parked)) = trace w_parked.
Proof.
  apply (control_tick_idle w_parked). left. reflexivity.
Defined.

Lemma control_loop_suspended_witness :
  exists w',
    control_loop 3 w_touched_down = (Ret tt, w') /\
    trace w' = trace w_touched_down /\
    takeoff_in_progress w' = takeoff_in_progress w_touched_down /\
    landing_in_progress w' = landing_in_progress w_touched_down.
Proof.
  apply (control_loop_suspended 3 w_touched_down). reflexivity.
Defined.

Lemma joystick_reaches_vehicle_witness :
  exists w1 w2,
    on_message 35 (Parsed (JObj joystick_fields)) w_fresh = (Ret tt, w1) /\
    last_velocity_cmd w1 = {| vx := 2; vy := 1; vz := 0; yaw_rate := 0 |} /\
    last_joystick_time w1 = now w_fresh /\
    control_tick w1 = (Ret tt, w2) /\
    trace w2 =
      trace w_fresh ++
      [EvReply (JObj [("type", JStr "ack"); ("cmd", JStr "joystick");
                      ("ok", JBool true)]);
       EvMavlink (ned_velocity_msg 2 1 0)].
Proof.
  apply (joystick_reaches_vehicle 35 joystick_fields 2 1 0 0 w_fresh
           (sim_vehicle "GUIDED" true (AltValue 1)) "GUIDED");
    try reflexivity.
  cbn. auto.
Defined.

Lemma joystick_refused_in_loiter_witness :
  exists more,
    on_message 35 (Parsed (JObj joystick_fields)) w_loiter =
    (Ret tt,
     with_trace
       (trace w_loiter ++
        [EvReply (JObj (("type", JStr "ack") :: ("cmd", JStr "joystick")
                          :: ("ok", JBool false) :: more))]) w_loiter).
Proof.
  apply (joystick_refused_in_loiter 35 joystick_fields w_loiter
           (sim_vehicle "LOITER" true (AltValue 1)));
    reflexivity.
Defined.

Lemma brake_zeroes_velocity_witness :
  exists w',
    on_message 35 (Parsed (JObj brake_fields)) w_fresh = (Ret tt, w') /\
    last_velocity_cmd w' = zero_cmd /\
    last_joystick_time w' = 0 /\
    trace w' =
      trace w_fresh ++
      [EvMavlink (ned_velocity_msg 0 0 0);
       EvReply (JObj [("type", JStr "ack"); ("cmd", JStr "brake");
                      ("ok", JBool true)])].
Proof.
  apply (brake_zeroes_velocity 35 brake_fields w_fresh
           (sim_vehicle "GUIDED" true (AltValue 1)) "GUIDED");
    try reflexivity.
  cbn. auto.
Defined.

Lemma land_sets_flag_on_success_witness :
  exists ok w',
    fst (ensure_mode 35 "LAND" default_attempts default_wait_each w_aloft)
      = Ret ok /\
    on_message 35 (Parsed (JObj land_fields)) w_aloft = (Ret tt, w') /\
    replies (trace w') =
      replies (trace w_aloft) ++
      [JObj [("type", JStr "ack"); ("cmd", JStr "land"); ("ok", JBool ok)]] /\
    landing_in_progress w' = (ok || landing_in_progress w_aloft) /\
    (ok = true ->
     exists v', vehicle w' = Some v' /\ mode_name v' = Some "LAND").
Proof.
  apply (land_sets_flag_on_success 35 land_fields w_aloft);
    [lia|reflexivity].
Defined.

Lemma non_object_frame_raises_witness :
  exists msg,
    on_message 35 (Parsed (JArr [JNum 1])) w_parked
    = (Raise (AttributeError msg), w_parked).
Proof.
  apply (non_object_frame_raises 35 (JArr [JNum 1]) w_parked). exact I.
Defined.

Lemma takeoff_acknowledged_at_once_witness :
  on_message 35 (Parsed (JObj takeoff_fields)) w_offline =
  (Ret tt,
   with_trace
     (trace w_offline ++
      [EvSpawn (ThDoTakeoff (15 # 10));
       EvReply (JObj [("type", JStr "ack"); ("cmd", JStr "takeoff");
                      ("alt", JNum (15 # 10)); ("ok", JBool true)])])
     w_offline) /\
  (assoc_get "alt" takeoff_fields = None -> (15 # 10) = 15 # 10).
Proof.
  apply (takeoff_acknowledged_at_once 35 takeoff_fields (15 # 10) w_offline);
    reflexivity.
Defined.

Lemma empty_mode_refused_witness :
  exists more,
    on_message 35 (Parsed (JObj mode_fields)) w_parked =
    (Ret tt,
     with_trace
       (trace w_parked ++
        [EvReply (JObj (("type", JStr "ack") :: ("cmd", JStr "mode")
                          :: ("ok", JBool false) :: more))]) w_parked).
Proof.
  apply (empty_mode_refused 35 mode_fields w_parked); reflexivity.
Defined.

Lemma statustext_log_bounded_witness :
  length (recent_statustext (listen two_messages w_parked)) =
    Nat.min (length (recent_statustext w_parked) + length two_messages) 50 /\
  trace (listen two_messages w_parked) = trace w_parked /\
  vehicle (listen two_messages w_parked) = vehicle w_parked /\
  now (listen two_messages w_parked) = now w_parked /\
  last_velocity_cmd (listen two_messages w_parked)
    = last_velocity_cmd w_parked /\
  last_joystick_time (listen two_messages w_parked)
    = last_joystick_time w_parked /\
  takeoff_in_progress (listen two_messages w_parked)
    = takeoff_in_progress w_parked /\
  takeoff_target_alt (listen two_messages w_parked)
    = takeoff_target_alt w_parked /\
  landing_in_progress (listen two_messages w_parked)
    = landing_in_progress w_parked.
Proof.
  apply (statustext_log_bounded two_messages w_parked). cbn. lia.
Defined.

Lemma diag_reports_newest_five_witness :
  exists st older,
    on_message 35 (Parsed (JObj diag_fields)) w_parked =
      (Ret tt,
       with_trace
         (trace w_parked ++
          [EvReply (JObj [("type", JStr "diag_reply"); ("diag", JObj st)])])
         w_parked) /\
    assoc_get "recent_statustext" st =
      Some (JArr (map statustext_json (last5 (recent_statustext w_parked)))) /\
    recent_statustext w_parked = older ++ last5 (recent_statustext w_parked) /\
    length (last5 (recent_statustext w_parked)) =
      Nat.min 5 (length (recent_statustext w_parked)).
Proof.
  apply (diag_reports_newest_five 35 diag_fields w_parked). reflexivity.
Defined.

Lemma telemetry_prunes_failed_witness :
  exists pkt w',
    telemetry_tick two_clients w_aloft =
      (Ret (filter delivers two_clients,
            map (fun c => (c, pkt)) (filter delivers two_clients)), w') /\
    field pkt "type" = Some (JStr "telemetry") /\
    field pkt "cmd_age_ms" =
      Some (JNum (inject_Z (cmd_age_ms_of (now w_aloft)
                              (last_joystick_time w_aloft)))) /\
    evolves [] w_aloft w' /\
    now w' = now w_aloft + (5 # 10).
Proof.
  apply (telemetry_prunes_failed two_clients w_aloft
           (sim_vehicle "GUIDED" true (AltValue 1)));
    [reflexivity|discriminate|].
  repeat constructor; cbn; intuition discriminate.
Defined.

Lemma telemetry_idle_witness :
  exists w',
    telemetry_tick two_clients w_offline = (Ret (two_clients, []), w') /\
    evolves [] w_offline w' /\
    now w' = now w_offline + (5 # 10).
Proof.
  apply (telemetry_idle two_clients w_offline). right. reflexivity.
Defined.

Lemma cmd_age_ms_meaning_witness :
  cmd_age_ms_of 2 0 = (-1)%Z /\
  (0 <= cmd_age_ms_of 2 (3 # 2))%Z /\
  inject_Z (cmd_age_ms_of 2 (3 # 2)) <= (2 - (3 # 2)) * 1000 /\
  (2 - (3 # 2)) * 1000 < inject_Z (cmd_age_ms_of 2 (3 # 2)) + 1.
Proof.
  split.
  - apply (proj1 (cmd_age_ms_meaning 2 0)). vm_compute. discriminate.
  - apply (proj2 (cmd_age_ms_meaning 2 (3 # 2)));
      [reflexivity|vm_compute; discriminate].
Defined.
